(** * Currency converter: a shallow embedding of [converter.py]

    The development follows the [Converter] class of [src/converter.py]:
    the [date] setter, [get_rates] / [download_rates] / [archive_rates],
    [translate_symbol], [get_target_currencies] and [convert_currency].

    Conventions of the embedding.
    - A Python [str] is a Rocq [string]; every character stands for one code
      point in the range U+0000..U+00FF, so [String.length] is Python's [len].
    - A Python [int] is a [Z]; a Python [float] is an IEEE 754 binary64 value,
      a [spec_float] operated on with precision 53 and maximal exponent 1024.
    - A Python [dict] is an association list in insertion order.
    - Exceptions are values of type [exn]; a call either returns or raises
      ([outcome]).  [exit(1)] raises [SystemExit].
    - The file system, the network and the clock are explicit: the mutable
      part is a [world], the part a call only reads is an [env]. *)

From Stdlib Require Import ZArith List String Ascii Bool Lia.
From Stdlib Require Import DecimalString DecimalPos SpecFloat.
Import ListNotations.

Local Open Scope string_scope.
Local Open Scope list_scope.
Local Open Scope Z_scope.

(* ================================================================== *)
(** ** Exceptions *)

(** The four messages of [DateError] raised by the date setter. *)
Inductive date_error : Type :=
| BadLength                       (* "Date must be in DD/MM/YYY format." *)
| YearRange (current_year : Z)    (* "Year must be between 2000 and {0}." *)
| MonthRange                      (* "Month must be between 01 and 12." *)
| DayRange.                       (* "Day out of range." *)

(** The messages of the two [ValueError]s each of [get_target_currencies] and
    [convert_currency] raises; [BuiltinValueError] is a [ValueError] raised by
    a builtin ([int], [float], [strptime], [utcfromtimestamp]). *)
Inductive value_error : Type :=
| BuiltinValueError
| SymbolAsInput                   (* "Currency symbol as input parameter not supported" *)
| UnsupportedCurrency (c : option string)  (* "Currency {0} invalid or not supported" *)
| NotFloat                        (* "Value has to be float type." *)
| NegativeValue.                  (* "Value cannot be negative." *)

Inductive exn : Type :=
| TypeError
| ValueError (v : value_error)
| JSONDecodeError                 (* subclass of ValueError *)
| KeyError (key : option string)
| IOError                         (* OSError: open() failed *)
| HTTPError (code : Z)            (* subclass of URLError, of OSError *)
| URLError                        (* subclass of OSError *)
| ZeroDivisionError
| OverflowError
| DateError (d : date_error)
| SystemExit (code : Z).          (* subclass of BaseException only *)

(** The classes named in the [except] clauses of the source. *)
Inductive exn_class : Type :=
| CTypeError | CValueError | CKeyError | CIOError | CHTTPError | CDateError.

(** [isinstance e c]: is [e] an instance of class [c] (or of a subclass)? *)
Definition isinstance (e : exn) (c : exn_class) : bool :=
  match c, e with
  | CTypeError, TypeError => true
  | CValueError, (ValueError _ | JSONDecodeError) => true
  | CKeyError, KeyError _ => true
  | CIOError, (IOError | HTTPError _ | URLError) => true
  | CHTTPError, HTTPError _ => true
  | CDateError, DateError _ => true
  | _, _ => false
  end.

(** [except (c1, c2, ...)] catches [e] when [e] is an instance of one of them. *)
Definition caught (e : exn) (cs : list exn_class) : bool :=
  existsb (isinstance e) cs.

Inductive outcome (A : Type) : Type :=
| Return (a : A)
| Raise (e : exn).
Arguments Return {A} a.
Arguments Raise {A} e.

Definition obind {A B : Type} (o : outcome A) (k : A -> outcome B) : outcome B :=
  match o with
  | Return a => k a
  | Raise e => Raise e
  end.

Declare Scope outcome_scope.
Delimit Scope outcome_scope with outcome.
Notation "'let*' x ':=' o 'in' k" := (obind o (fun x => k))
  (at level 10, x pattern, o at level 100, k at level 200) : outcome_scope.
Local Open Scope outcome_scope.

(* ================================================================== *)
(** ** Strings *)

(** [s.split(sep)] for a one-character separator. *)
Fixpoint split (sep : ascii) (s : string) : list string :=
  match s with
  | EmptyString => [EmptyString]
  | String c r =>
      if Ascii.eqb c sep then EmptyString :: split sep r
      else match split sep r with
           | [] => [String c EmptyString]
           | h :: t => String c h :: t
           end
  end.

(** [sep.join(parts)]. *)
Fixpoint join (sep : string) (parts : list string) : string :=
  match parts with
  | [] => EmptyString
  | [p] => p
  | p :: rest => (p ++ sep ++ join sep rest)%string
  end.

Definition strlen (s : string) : Z := Z.of_nat (String.length s).

(** The white space [int] and [float] strip from a [str], among the code
    points below 256: tab, line feed, vertical tab, form feed, carriage
    return and space, and the two white-space code points above 126, U+0085
    and U+00A0.  (U+001C..U+001F are white space for [str.isspace] but are
    not stripped by [int].) *)
Definition is_space (c : ascii) : bool :=
  let n := nat_of_ascii c in
  ((9 <=? n) && (n <=? 13))%nat || (n =? 32)%nat
  || (n =? 133)%nat || (n =? 160)%nat.

Fixpoint lstrip (s : string) : string :=
  match s with
  | String c r => if is_space c then lstrip r else s
  | EmptyString => EmptyString
  end.

Fixpoint rstrip (s : string) : string :=
  match s with
  | EmptyString => EmptyString
  | String c r =>
      match rstrip r with
      | EmptyString => if is_space c then EmptyString else String c EmptyString
      | r' => String c r'
      end
  end.

Definition strip (s : string) : string := rstrip (lstrip s).

Definition digit_val (c : ascii) : option Z :=
  let n := nat_of_ascii c in
  if ((48 <=? n) && (n <=? 57))%nat then Some (Z.of_nat n - 48) else None.

Definition is_digit (c : ascii) : bool :=
  match digit_val c with Some _ => true | None => false end.

(** The digits of a decimal literal; one underscore may separate two digits
    ([prev_us]: the previous character was an underscore). *)
Fixpoint int_digits (s : string) (prev_us : bool) (acc : Z) : option Z :=
  match s with
  | EmptyString => if prev_us then None else Some acc
  | String c r =>
      if Ascii.eqb c "_" then
        if prev_us then None else int_digits r true acc
      else match digit_val c with
           | Some d => int_digits r false (10 * acc + d)
           | None => None
           end
  end.

(** The builtin [int(s)] on a [str], base 10: surrounding white space, an
    optional sign, digits; anything else is a [ValueError]. *)
Definition py_int (s : string) : outcome Z :=
  let t := strip s in
  let '(neg, body) :=
    match t with
    | String "+" r => (false, r)
    | String "-" r => (true, r)
    | _ => (false, t)
    end in
  match body with
  | EmptyString => Raise (ValueError BuiltinValueError)
  | String "_" _ => Raise (ValueError BuiltinValueError)
  | _ =>
      match int_digits body false 0 with
      | Some v => Return (if neg then - v else v)
      | None => Raise (ValueError BuiltinValueError)
      end
  end.

(** [range(lo, hi)]. *)
Definition py_range (lo hi : Z) : list Z :=
  map (fun i => lo + Z.of_nat i) (seq 0 (Z.to_nat (hi - lo))).

(** [x in l] for a list of integers. *)
Definition z_in (x : Z) (l : list Z) : bool := existsb (Z.eqb x) l.

(** [str(z)] for an [int]: the decimal numeral, ["-"] first when negative. *)
Definition py_str_of_int (z : Z) : string := NilZero.string_of_int (Z.to_int z).

(* ================================================================== *)
(** ** Numbers *)

(** Python's [float]: binary64. *)
Definition float : Type := spec_float.
Definition prec : Z := 53.
Definition emax : Z := 1024.

Definition fmul : float -> float -> float := SFmul prec emax.
Definition fdiv : float -> float -> float := SFdiv prec emax.
Definition fltb : float -> float -> bool := SFltb.

(** The nearest [float] to an integer (ties to even); an infinity when the
    integer is too large. *)
Definition float_of_Z (z : Z) : float := binary_normalize prec emax z 0 false.

Definition is_zero (f : float) : bool :=
  match f with S754_zero _ => true | _ => false end.

(** A JSON number, as [json.load] returns it: an [int] or a [float]. *)
Inductive pynum : Type :=
| PyInt (z : Z)
| PyFloat (f : float).

(** The conversion of the right operand of [float / x] and [float * x]. *)
Definition to_float (n : pynum) : outcome float :=
  match n with
  | PyFloat f => Return f
  | PyInt z =>
      match float_of_Z z with
      | S754_infinity _ => Raise OverflowError
      | f => Return f
      end
  end.

(** [a / b] for a [float] a. *)
Definition py_truediv (a : float) (b : pynum) : outcome float :=
  let* fb := to_float b in
  if is_zero fb then Raise ZeroDivisionError else Return (fdiv a fb).

(** [a * b] for a [float] a. *)
Definition py_mul (a : float) (b : pynum) : outcome float :=
  let* fb := to_float b in
  Return (fmul a fb).

(** [n / d] rounded to the nearest integer, ties to even ([0 <= n], [0 < d]). *)
Definition round_half_even_div (n d : Z) : Z :=
  let q := n / d in
  let r := n mod d in
  match 2 * r ?= d with
  | Lt => q
  | Gt => q + 1
  | Eq => if Z.even q then q else q + 1
  end.

(** [round(x, 2)] on a [float]: the exact value of [x] is rounded to two
    decimals (ties to even), and the nearest [float] to that decimal is the
    result; infinities and NaN round to themselves. *)
Definition py_round2 (x : float) : float :=
  match x with
  | S754_finite s m e =>
      let hundredths :=
        if 0 <=? e then Zpos m * 2 ^ e * 100
        else round_half_even_div (Zpos m * 100) (2 ^ (- e)) in
      match hundredths with
      | Zpos p => fdiv (S754_finite s p 0) (S754_finite false 100 0)
      | _ => S754_zero s
      end
  | _ => x
  end.

(* ================================================================== *)
(** ** Dictionaries *)

Section Dict.
Context {K V : Type} (eqb : K -> K -> bool).

(** [d.get(k)]: [None] when [d[k]] raises [KeyError]. *)
Fixpoint dict_get (d : list (K * V)) (k : K) : option V :=
  match d with
  | [] => None
  | (k', v) :: r => if eqb k' k then Some v else dict_get r k
  end.

(** [d[k] = v]: the value is replaced where the key is, a new key is
    appended. *)
Fixpoint dict_set (d : list (K * V)) (k : K) (v : V) : list (K * V) :=
  match d with
  | [] => [(k, v)]
  | (k', v') :: r =>
      if eqb k' k then (k', v) :: r else (k', v') :: dict_set r k v
  end.

(** [k in d]. *)
Definition dict_mem (d : list (K * V)) (k : K) : bool :=
  match dict_get d k with Some _ => true | None => false end.

(** [[key for key in d]]. *)
Definition dict_keys (d : list (K * V)) : list K := map fst d.

(** The dictionary [json.load] builds from the members of a JSON object, in
    document order: a repeated name keeps its first position and its last
    value. *)
Definition dict_of_members (members : list (K * V)) : list (K * V) :=
  fold_left (fun d kv => dict_set d (fst kv) (snd kv)) members [].
End Dict.

(** Currency code -> rate. *)
Definition rates : Type := list (string * pynum).

(** A key of the dictionary [archive_rates] updates: the names read from the
    file are [str], the timestamp of a response is an [int]; a [str] and an
    [int] are never equal. *)
Inductive pykey : Type :=
| KStr (s : string)
| KInt (z : Z).

Definition pykey_eqb (a b : pykey) : bool :=
  match a, b with
  | KStr s, KStr t => String.eqb s t
  | KInt x, KInt y => Z.eqb x y
  | _, _ => false
  end.

(** The name [json.dump] writes for a key. *)
Definition key_text (k : pykey) : string :=
  match k with
  | KStr s => s
  | KInt z => py_str_of_int z
  end.

(** A key of the currency-rate dictionary or of the symbol table against a
    value that may be [None]. *)
Definition opt_key_eqb (k : string) (x : option string) : bool :=
  match x with
  | Some s => String.eqb k s
  | None => false
  end.

(** The response of the rate provider: [{"timestamp": ..., "base": ...,
    "rates": {...}}]. *)
Record snapshot : Type := {
  timestamp : Z;
  base : string;
  snapshot_rates : rates
}.

(* ================================================================== *)
(** ** Calendar dates *)

(** The [year], [month] and [day] of a [datetime]. *)
Record ymd : Type := { dt_year : Z; dt_month : Z; dt_day : Z }.

Definition same_day (a b : ymd) : bool :=
  (dt_year a =? dt_year b) && (dt_month a =? dt_month b)
  && (dt_day a =? dt_day b).

Definition is_leap (y : Z) : bool :=
  (y mod 4 =? 0) && (negb (y mod 100 =? 0) || (y mod 400 =? 0)).

Definition days_in_month (y m : Z) : Z :=
  if m =? 2 then (if is_leap y then 29 else 28)
  else if z_in m [4; 6; 9; 11] then 30 else 31.

(** The constructor [date(y, m, d)], a [ValueError] outside the calendar. *)
Definition make_date (y m d : Z) : outcome ymd :=
  if (1 <=? y) && (y <=? 9999) && (1 <=? m) && (m <=? 12)
     && (1 <=? d) && (d <=? days_in_month y m)
  then Return {| dt_year := y; dt_month := m; dt_day := d |}
  else Raise (ValueError BuiltinValueError).

(** The Gregorian date of a day number counted from 1970-01-01. *)
Definition civil_of_days (days : Z) : ymd :=
  let z := days + 719468 in
  let era := z / 146097 in
  let doe := z - era * 146097 in
  let yoe := (doe - doe / 1460 + doe / 36524 - doe / 146096) / 365 in
  let doy := doe - (365 * yoe + yoe / 4 - yoe / 100) in
  let mp := (5 * doy + 2) / 153 in
  let m := if mp <? 10 then mp + 3 else mp - 9 in
  {| dt_year := (if m <=? 2 then yoe + era * 400 + 1 else yoe + era * 400);
     dt_month := m;
     dt_day := doy - (153 * mp + 2) / 5 + 1 |}.

(** [datetime.utcfromtimestamp(t)] for a whole number of seconds.  Outside
    the years 1..9999 it raises; the class raised there depends on the
    magnitude and on the platform ([ValueError] just outside the range,
    [OSError] or [OverflowError] further out).  The model raises
    [ValueError] for all of them: the source calls [utcfromtimestamp]
    outside every [try], so only the fact that it raises is used. *)
Definition utcfromtimestamp (t : Z) : outcome ymd :=
  if (-62135596800 <=? t) && (t <=? 253402300799)
  then Return (civil_of_days (t / 86400))
  else Raise (ValueError BuiltinValueError).

(** [float(key)] on a key of the archive.  The keys [archive_rates] writes
    are the decimal numerals of integer timestamps; on a numeral [float] and
    [int] read the same number (exactly, within the range
    [utcfromtimestamp] accepts).  Fractions, exponents, [inf] and [nan] are
    outside this model and are read as a [ValueError]. *)
Definition float_of_key (key : string) : outcome Z := py_int key.

(** [datetime.datetime.utcfromtimestamp(float(key))]. *)
Definition key_date (key : string) : outcome ymd :=
  let* t := float_of_key key in
  utcfromtimestamp t.

Definition two_digits (a b : ascii) : option Z :=
  match digit_val a, digit_val b with
  | Some x, Some y => Some (10 * x + y)
  | _, _ => None
  end.

(** The matches of [%m], [(1[0-2]|0[1-9]|[1-9])], at the head of [r], in the
    order of the alternatives, each with the rest of the text. *)
Definition match_month (r : string) : list (Z * string) :=
  match r with
  | String a r1 =>
      (match r1 with
       | String b r2 =>
           match two_digits a b with
           | Some n => if ((10 <=? n) && (n <=? 12)) || ((1 <=? n) && (n <=? 9))
                       then [(n, r2)] else []
           | None => []
           end
       | EmptyString => []
       end)
      ++ (match digit_val a with
          | Some n => if 1 <=? n then [(n, r1)] else []
          | None => []
          end)
  | EmptyString => []
  end.

(** The matches of [%d], [(3[01]|[12]\d|0[1-9]|[1-9]| [1-9])]. *)
Definition match_day (r : string) : list (Z * string) :=
  match r with
  | String a r1 =>
      (match r1 with
       | String b r2 =>
           match two_digits a b with
           | Some n => if (1 <=? n) && (n <=? 31) then [(n, r2)] else []
           | None => []
           end
       | EmptyString => []
       end)
      ++ (match digit_val a with
          | Some n => if 1 <=? n then [(n, r1)] else []
          | None => []
          end)
      ++ (match r1 with
          | String b r2 =>
              if Ascii.eqb a " " then
                match digit_val b with
                | Some n => if 1 <=? n then [(n, r2)] else []
                | None => []
                end
              else []
          | EmptyString => []
          end)
  | EmptyString => []
  end.

(** The first month alternative after which ["-"] and a day match. *)
Fixpoint first_month_day (ms : list (Z * string)) : option (Z * Z * string) :=
  match ms with
  | [] => None
  | (m, String "-" r) :: rest =>
      match match_day r with
      | (d, r') :: _ => Some (m, d, r')
      | [] => first_month_day rest
      end
  | _ :: rest => first_month_day rest
  end.

(** [datetime.strptime(s, "%Y-%m-%d")], its year, month and day; a
    [ValueError] when the text does not match, when text remains after the
    match, or when the date is not in the calendar. *)
Definition strptime_ymd (s : string) : outcome ymd :=
  match s with
  | String y1 (String y2 (String y3 (String y4 (String "-" r)))) =>
      match two_digits y1 y2, two_digits y3 y4, first_month_day (match_month r) with
      | Some hi, Some lo, Some (m, d, EmptyString) => make_date (100 * hi + lo) m d
      | _, _, _ => Raise (ValueError BuiltinValueError)
      end
  | _ => Raise (ValueError BuiltinValueError)
  end.

(* ================================================================== *)
(** ** The world of a run *)

(** A JSON file as [open] and [json.load] see it: [open] fails, [json.load]
    fails, or the file holds a JSON object with these members.  A file that
    holds JSON of another kind (an array, a number, [null]) is outside the
    model: the archive and the symbol table are JSON objects. *)
Inductive file (A : Type) : Type :=
| Missing
| Malformed
| Content (members : list (string * A)).
Arguments Missing {A}.
Arguments Malformed {A}.
Arguments Content {A} members.

(** The two routes of the rate provider. *)
Inductive request : Type :=
| LatestRates
| HistoricalRates (date : string).

(** What [urlopen] and [json.loads] make of a request.  A body that is
    JSON has the shape of a provider response, with its ["timestamp"] and
    its ["rates"]; a JSON body without them is outside the model. *)
Inductive response : Type :=
| HttpFailure (code : Z)
| NoConnection
| BadBody
| Body (s : snapshot).

(** What [open(file, "w")] and [json.dump] do to the archive file. *)
Inductive disk : Type :=
| Writable
| OpenFails      (* [open] raises, the file keeps its content *)
| WriteFails.    (* [open] truncated the file, the write raises *)

(** The lines the program prints. *)
Inductive message : Type :=
| MsgUsingRates (d : string)         (* "Using {0} exchange rates." *)
| MsgError (e : exn)                 (* print(err) *)
| MsgDownloadFailed (e : exn) (cause : string)
| MsgSavingFailed (e : exn)
| MsgSymbolsFailed (e : exn)
| MsgTerminate                       (* "Program will terminate." *)
| MsgSkipping (currency : string).   (* "Currency {0} not supported, skipping." *)

(** What a run reads and does not change: the clock, the provider, the
    state of the disk under the archive and the table of symbols.  The names
    of the files and the id of the application are those of [config.ini],
    taken to hold the sections and options [get_config_element] asks for. *)
Record env : Type := {
  now : ymd;                                        (* datetime.now() *)
  provider : request -> response;
  archive_disk : disk;
  currency_table : file (list string)
}.

Record world : Type := {
  stdout : list message;
  archive_file : file rates;
  requests : list request
}.

(** A method of the converter: it may print, fetch and write, and it returns
    or raises. *)
Definition M (A : Type) : Type := world -> outcome A * world.

Definition ret {A : Type} (a : A) : M A := fun w => (Return a, w).

Definition raise {A : Type} (e : exn) : M A := fun w => (Raise e, w).

Definition bind {A B : Type} (m : M A) (k : A -> M B) : M B :=
  fun w =>
    match m w with
    | (Return a, w') => k a w'
    | (Raise e, w') => (Raise e, w')
    end.

Definition lift {A : Type} (o : outcome A) : M A := fun w => (o, w).

Declare Scope M_scope.
Delimit Scope M_scope with M.
Notation "x <- m ;; k" := (bind m (fun x => k))
  (at level 61, m at next level, right associativity) : M_scope.
Notation "m ;; k" := (bind m (fun _ => k))
  (at level 61, right associativity) : M_scope.
Local Open Scope M_scope.

Definition print (m : message) : M unit :=
  fun w => (Return tt, {| stdout := stdout w ++ [m];
                          archive_file := archive_file w;
                          requests := requests w |}).

(** [exit(code)]. *)
Definition exit {A : Type} (code : Z) : M A := raise (SystemExit code).

(** The first [except] clause that names a class of [e]. *)
Fixpoint find_clause {A : Type} (e : exn)
    (clauses : list (list exn_class * (exn -> M A))) : option (exn -> M A) :=
  match clauses with
  | [] => None
  | (cs, h) :: rest => if caught e cs then Some h else find_clause e rest
  end.

(** [try: body  except cs1 as err: h1  except cs2: h2 ...]. *)
Definition try_except {A : Type} (body : M A)
    (clauses : list (list exn_class * (exn -> M A))) : M A :=
  fun w =>
    match body w with
    | (Return a, w') => (Return a, w')
    | (Raise e, w') =>
        match find_clause e clauses with
        | Some h => h e w'
        | None => (Raise e, w')
        end
    end.

(* ================================================================== *)
(** ** The class [Converter] *)

Module Converter.

(** [collections.namedtuple("parsed_date", "day month year")]. *)
Record parsed_date : Type := {
  pd_day : string;
  pd_month : string;
  pd_year : string
}.

(** The call of [parsed_date] on the unpacked fields: a [TypeError] unless
    there are three of them. *)
Definition make_parsed_date (fields : list string) : outcome parsed_date :=
  match fields with
  | [d; m; y] => Return {| pd_day := d; pd_month := m; pd_year := y |}
  | _ => Raise TypeError
  end.

(** The leap-year test of the setter:
    [year in [yr for yr in range(2000, year) if (yr % 4 == 0)]]. *)
Definition leap_test (year : Z) : bool :=
  z_in year (filter (fun yr => yr mod 4 =? 0) (py_range 2000 year)).

(** The body of the [try] statement of the [date] setter. *)
Definition check_date (current_year : Z) (date : string) : outcome parsed_date :=
  if negb (strlen date =? 10) then Raise (DateError BadLength) else
  let* parsed := make_parsed_date (split "/" date) in
  let* year := py_int (pd_year parsed) in
  let* month := py_int (pd_month parsed) in
  let* day := py_int (pd_day parsed) in
  if negb ((2000 <=? year) && (year <=? current_year))
  then Raise (DateError (YearRange current_year)) else
  if negb ((1 <=? month) && (month <=? 12))
  then Raise (DateError MonthRange) else
  let* _ :=
    if (month =? 2) && (28 <? day) then
      if (day =? 29) && leap_test year then Return tt
      else Raise (DateError DayRange)
    else Return tt in
  if negb ((1 <=? day) && (day <=? 31)) then Raise (DateError DayRange) else
  if (day =? 31) && negb (z_in month [1; 3; 5; 7; 8; 10; 12])
  then Raise (DateError DayRange) else
  Return parsed.

(** The setter of the property [date]; the result is the value it assigns to
    the attribute. *)
Definition date_setter (e : env) (date : option string) : M string :=
  let new_date := "latest" in
  match date with
  | None => print (MsgUsingRates new_date) ;; ret new_date
  | Some date =>
      fun w =>
        match check_date (dt_year (now e)) date with
        | Raise err =>
            if caught err [CTypeError; CValueError; CDateError] then
              (print (MsgError err) ;;
               print (MsgUsingRates new_date) ;;
               ret new_date) w
            else
              (print (MsgUsingRates new_date) ;; raise err) w
        | Return parsed =>
            let new_date :=
              join "-" [pd_year parsed; pd_month parsed; pd_day parsed] in
            (print (MsgUsingRates new_date) ;; ret new_date) w
        end
  end.

(** [with open(file) as data_file: json.load(data_file)]. *)
Definition read_json {A : Type} (f : file A) : outcome (list (string * A)) :=
  match f with
  | Missing => Raise IOError
  | Malformed => Raise JSONDecodeError
  | Content members => Return (dict_of_members String.eqb members)
  end.

Definition read_archive : M (list (string * rates)) :=
  fun w => (read_json (archive_file w), w).

(** The table [error_codes] of [download_rates], "Unknown error" otherwise.
    The text of 429 has a plain apostrophe where the literal of the source
    has code points above 255. *)
Definition error_cause (code : Z) : string :=
  if code =? 400 then "Client requested rates for an unsupported base currency"
  else if code =? 401 then "Client did not provide an App ID"
  else if code =? 403 then "Access restricted for repeated over-use or other reason."
  else if code =? 404 then "Client requested a non-existent resource/route"
  else if code =? 429 then "Client doesn't have permission to access requested route/feature"
  else "Unknown error".

Definition send (e : env) (r : request) : M response :=
  fun w => (Return (provider e r),
            {| stdout := stdout w;
               archive_file := archive_file w;
               requests := requests w ++ [r] |}).

Definition download_rates (e : env) (self_date : string) : M snapshot :=
  let url :=
    if String.eqb self_date "latest" then LatestRates
    else HistoricalRates self_date in
  resp <- send e url ;;
  match resp with
  | HttpFailure code =>
      print (MsgDownloadFailed (HTTPError code) (error_cause code)) ;;
      print MsgTerminate ;;
      exit 1
  | NoConnection => raise URLError
  | BadBody => raise JSONDecodeError
  | Body data => ret data
  end.

(** [with open(file, "w") as data_file: json.dump(loaded_data, data_file)]. *)
Definition write_archive (e : env) (loaded_data : list (pykey * rates)) : M unit :=
  fun w =>
    match archive_disk e with
    | Writable =>
        (Return tt,
         {| stdout := stdout w;
            archive_file :=
              Content (map (fun kv => (key_text (fst kv), snd kv)) loaded_data);
            requests := requests w |})
    | OpenFails => (Raise IOError, w)
    | WriteFails =>
        (Raise IOError,
         {| stdout := stdout w;
            archive_file := Malformed;
            requests := requests w |})
    end.

Definition archive_rates (e : env) (data : snapshot) : M unit :=
  loaded_data <-
    try_except
      (d <- read_archive ;;
       ret (map (fun kv => (KStr (fst kv), snd kv)) d))
      [([CIOError; CValueError], fun _ => ret [])] ;;
  let loaded_data :=
    dict_set pykey_eqb loaded_data (KInt (timestamp data)) (snapshot_rates data) in
  try_except
    (write_archive e loaded_data)
    [([CIOError; CValueError], fun err => print (MsgSavingFailed err))].

(** The loop [for key in data] of [get_rates]: the rates of the first key
    whose UTC date is [date], [None] when the loop ends without a [return]. *)
Fixpoint search_archive (date : ymd) (data : list (string * rates))
    (keys : list string) : outcome (option rates) :=
  match keys with
  | [] => Return None
  | key :: rest =>
      let* saved_date := key_date key in
      if same_day date saved_date then
        match dict_get String.eqb data key with
        | Some r => Return (Some r)
        | None => Raise (KeyError (Some key))
        end
      else search_archive date data rest
  end.

Definition download_and_archive (e : env) (self_date : string) : M rates :=
  rates <- download_rates e self_date ;;
  archive_rates e rates ;;
  ret (snapshot_rates rates).

Definition get_rates (e : env) (self_date : string) : M rates :=
  r <-
    try_except
      (data <- read_archive ;;
       date <- (if String.eqb self_date "latest" then ret (now e)
                else lift (strptime_ymd self_date)) ;;
       ret (inl (data, date)))
      [([CIOError; CValueError],
        fun _ => rates <- download_and_archive e self_date ;; ret (inr rates))] ;;
  match r with
  | inr rates => ret rates
  | inl (data, date) =>
      found <- lift (search_archive date data (dict_keys data)) ;;
      match found with
      | Some rates => ret rates
      | None => download_and_archive e self_date
      end
  end.

(** The object [__init__] builds. *)
Record converter : Type := {
  self_date : string;
  currency_rates : rates
}.

Definition init (e : env) (date : option string) : M converter :=
  d <- date_setter e date ;;
  r <- get_rates e d ;;
  ret {| self_date := d; currency_rates := r |}.

(** [d[k]] and [k in d] for a [k] that may be [None]. *)
Definition lookup {V : Type} (d : list (string * V)) (k : option string) : option V :=
  match k with
  | Some s => dict_get String.eqb d s
  | None => None
  end.

Definition member {V : Type} (d : list (string * V)) (k : option string) : bool :=
  match lookup d k with Some _ => true | None => false end.

Definition translate_symbol (e : env) (currency : option string) : M (list string) :=
  try_except
    (data <- lift (read_json (currency_table e)) ;;
     match lookup data currency with
     | Some currencies => ret currencies
     | None => raise (KeyError currency)
     end)
    [([CIOError],
      fun err => print (MsgSymbolsFailed err) ;; print MsgTerminate ;; exit 1);
     ([CKeyError], fun _ => ret [])].

(** The truth value of [original_currency and len(original_currency) != 3]. *)
Definition wrong_length (original_currency : option string) : bool :=
  match original_currency with
  | None => false
  | Some s => negb (strlen s =? 0) && negb (strlen s =? 3)
  end.

Definition get_target_currencies (e : env) (currency_rates : rates)
    (original_currency target_currency : option string) : M (list string) :=
  if wrong_length original_currency
  then raise (ValueError SymbolAsInput) else
  if negb (member currency_rates original_currency)
  then raise (ValueError (UnsupportedCurrency original_currency)) else
  target_currencies <- translate_symbol e target_currency ;;
  match target_currencies with
  | _ :: _ => ret target_currencies
  | [] =>
      match target_currency with
      | Some t =>
          if dict_mem String.eqb currency_rates t then ret [t]
          else ret (dict_keys currency_rates)
      | None => ret (dict_keys currency_rates)
      end
  end.

(** The dictionary [convert_currency] returns. *)
Record conversion : Type := {
  input_amount : float;
  input_currency : option string;
  output : list (string * float)
}.

(** The loop [for currency in target_currencies], on the dictionary
    [data["output"]]. *)
Fixpoint convert_loop (currency_rates : rates) (amount : float)
    (original_rate : pynum) (target_currencies : list string)
    (output : list (string * float)) : M (list (string * float)) :=
  match target_currencies with
  | [] => ret output
  | currency :: rest =>
      output' <-
        try_except
          (match dict_get String.eqb currency_rates currency with
           | None => raise (KeyError (Some currency))
           | Some target_rate =>
               q <- lift (py_truediv amount original_rate) ;;
               v <- lift (py_mul q target_rate) ;;
               ret (dict_set String.eqb output currency (py_round2 v))
           end)
          [([CKeyError], fun _ => print (MsgSkipping currency) ;; ret output)] ;;
      convert_loop currency_rates amount original_rate rest output'
  end.

Definition convert_currency (currency_rates : rates) (amount : pynum)
    (original_currency : option string) (target_currencies : list string)
    : M conversion :=
  match amount with
  | PyInt _ => raise (ValueError NotFloat)
  | PyFloat amount =>
      if fltb amount (S754_zero false) then raise (ValueError NegativeValue) else
      match lookup currency_rates original_currency with
      | None => raise (KeyError original_currency)
      | Some original_rate =>
          output <- convert_loop currency_rates amount original_rate
                      target_currencies [] ;;
          ret {| input_amount := amount;
                 input_currency := original_currency;
                 output := output |}
      end
  end.

End Converter.
Import Converter.

(* ================================================================== *)
(** ** The specification's vocabulary *)

(** Section 4.1 of the specification, in its words: ten characters, three
    fields between slashes that read as integers, a year from 2000 to the
    current year, a month from 1 to 12, a day of that month's calendar. *)
Definition well_formed_date (current_year : Z) (raw : string) : bool :=
  (strlen raw =? 10) &&
  match split "/" raw with
  | [d; m; y] =>
      match py_int d, py_int m, py_int y with
      | Return day, Return month, Return year =>
          (2000 <=? year) && (year <=? current_year)
          && (1 <=? month) && (month <=? 12)
          && (1 <=? day) && (day <=? days_in_month year month)
      | _, _, _ => false
      end
  | _ => false
  end.

(** [round(amount / rate[source] * rate[target], 2)]. *)
Definition rounded_conversion (amount : float) (source_rate target_rate : pynum)
    : outcome float :=
  let* q := py_truediv amount source_rate in
  let* v := py_mul q target_rate in
  Return (py_round2 v).

(** A rate of the data model: a positive number a [float] can hold. *)
Definition positive_rate (n : pynum) : bool :=
  match to_float n with
  | Return f => fltb (S754_zero false) f
  | Raise _ => false
  end.

Definition float_literal (numerator denominator : Z) : float :=
  fdiv (float_of_Z numerator) (float_of_Z denominator).

(** The rates of the unit tests: [{USD: 1.5, CZK: 25, CAD: 1.3}]. *)
Definition test_rates : rates :=
  [("USD", PyFloat (float_literal 15 10));
   ("CZK", PyInt 25);
   ("CAD", PyFloat (float_literal 13 10))].

(** The lines [translate_symbol] prints before it exits. *)
Definition symbols_report (w : world) : world :=
  {| stdout := stdout w ++ [MsgSymbolsFailed IOError; MsgTerminate];
     archive_file := archive_file w;
     requests := requests w |}.

(** The archive as a run loads it: the dictionary of the file, the empty
    dictionary when the file cannot be opened or decoded. *)
Definition archive_of (w : world) : list (string * rates) :=
  match read_json (archive_file w) with
  | Return d => d
  | Raise _ => []
  end.

(** The key of the archive is a timestamp of another day than [date]. *)
Definition other_day (date : ymd) (key : string) : Prop :=
  exists saved_date : ymd,
    key_date key = Return saved_date /\ same_day date saved_date = false.

(** A rate a [float] can hold. *)
Definition finite_rate (n : pynum) : bool :=
  match to_float n with
  | Return _ => true
  | Raise _ => false
  end.

(** A rate equal to zero. *)
Definition zero_rate (n : pynum) : bool :=
  match to_float n with
  | Return f => is_zero f
  | Raise _ => false
  end.

Fixpoint no_space (s : string) : bool :=
  match s with
  | EmptyString => true
  | String c r => negb (is_space c) && no_space r
  end.

Fixpoint all_digits (s : string) : bool :=
  match s with
  | EmptyString => true
  | String c r => is_digit c && all_digits r
  end.

(** The fixtures of the unit tests: the table entry of the pound sign
    (code point 163), a clock on 2017-07-14, a provider that answers with
    the test rates stamped 1500000000 (2017-07-14 02:40:00 UTC). *)
Definition pound : string := String "163" EmptyString.

Definition test_symbols : list (string * list string) :=
  [(pound, ["EGP"; "FKP"; "GIP"; "GGP"; "IMP"; "JEP"; "LBP"; "SHP"; "SYP";
            "GBP"])].

Definition test_snapshot : snapshot :=
  {| timestamp := 1500000000; base := "USD"; snapshot_rates := test_rates |}.

Definition test_env : env :=
  {| now := {| dt_year := 2017; dt_month := 7; dt_day := 14 |};
     provider := fun _ => Body test_snapshot;
     archive_disk := Writable;
     currency_table := Content test_symbols |}.

Definition empty_world : world :=
  {| stdout := []; archive_file := Missing; requests := [] |}.

(** A world whose archive holds the test rates under today's timestamp. *)
Definition archived_today : world :=
  {| stdout := [];
     archive_file := Content [("1500000000", test_rates)];
     requests := [] |}.

(** A world whose archive holds one entry of the day before,
    1499904000 being 2017-07-13 00:00:00 UTC. *)
Definition archived_yesterday : world :=
  {| stdout := [];
     archive_file := Content [("1499904000", [("USD", PyInt 1)])];
     requests := [] |}.

(** A world whose archive holds that entry, then today's. *)
Definition archived_two_days : world :=
  {| stdout := [];
     archive_file := Content [("1499904000", [("USD", PyInt 1)]);
                              ("1500000000", test_rates)];
     requests := [] |}.

(* ================================================================== *)
(** ** The command line ([currency_converter.py]) *)

Module Cli.

(** How the main block ends before it saves the result. *)
Inductive main_end : Type :=
| Converted (data : conversion)
    (* the conversion is handed to [save_converted_currency] *)
| AcquiringFailed (err : exn)
    (* "Acquiring input/output currencies failed: ", err;
       "Program will terminate."; exit(1) *)
| ConversionFailed (err : exn)
    (* "Conversion failed:", err; "Program will terminate."; exit(1) *)
| Escaped (err : exn).
    (* an exception no clause of the block names, [SystemExit] included *)

(** The main block from [converter.Converter(date)] to the call of
    [convert_currency], on the values [get_input] returns (the amount is
    the [float] that [float(arg_amount)] gave). *)
Definition main_until_save (e : env) (date currency_from currency_to : option string)
    (amount : float) (w : world) : main_end * world :=
  match init e date w with
  | (Raise err, w1) => (Escaped err, w1)
  | (Return currency_converter, w1) =>
      match get_target_currencies e (currency_rates currency_converter)
              currency_from currency_to w1 with
      | (Raise err, w2) =>
          if caught err [CValueError] then (AcquiringFailed err, w2)
          else (Escaped err, w2)
      | (Return target_currencies, w2) =>
          match convert_currency (currency_rates currency_converter)
                  (PyFloat amount) currency_from target_currencies w2 with
          | (Raise err, w3) =>
              if caught err [CValueError] then (ConversionFailed err, w3)
              else (Escaped err, w3)
          | (Return output_data, w3) => (Converted output_data, w3)
          end
      end
  end.

End Cli.

(* ================================================================== *)
(** ** More vocabulary *)

(** The date [get_rates] looks up: today for ["latest"], else what
    [strptime] reads. *)
Definition lookup_date (e : env) (self_date : string) : outcome ymd :=
  if String.eqb self_date "latest" then Return (now e)
  else strptime_ymd self_date.

(** The route [download_rates] asks. *)
Definition route (self_date : string) : request :=
  if String.eqb self_date "latest" then LatestRates
  else HistoricalRates self_date.

(** The world after some lines were printed, after a request was sent. *)
Definition printed (w : world) (lines : list message) : world :=
  {| stdout := stdout w ++ lines;
     archive_file := archive_file w;
     requests := requests w |}.

Definition requested (w : world) (r : request) : world :=
  {| stdout := stdout w;
     archive_file := archive_file w;
     requests := requests w ++ [r] |}.

(** [q] is the integer nearest to [n / d], and the even one when two
    integers are equally near ([0 < d]). *)
Definition nearest_even (n d q : Z) : Prop :=
  Z.abs (2 * n - 2 * q * d) <= d
  /\ (Z.abs (2 * n - 2 * q * d) = d -> Z.even q = true).

(** "Rounded to 2 decimal places", in the words of the specification: the
    exact value of a finite [float] of mantissa [m] and exponent [e] is
    [m * 2 ^ e]; [q] is the whole number of hundredths nearest to it (ties
    to the even one), and [v] is [q / 100] as binary64 division gives it,
    with the sign of [x].  Infinities and NaN stay as they are. *)
Definition rounded_to_cents (x v : float) : Prop :=
  match x with
  | S754_finite s m e =>
      exists q : Z,
        nearest_even (100 * Zpos m * 2 ^ Z.max 0 e) (2 ^ Z.max 0 (- e)) q
        /\ v = match q with
               | Zpos p => fdiv (S754_finite s p 0) (S754_finite false 100 0)
               | _ => S754_zero s
               end
  | _ => v = x
  end.

(** Rates for an example of a tie: [{EUR: 1, XAU: 0.125}]. *)
Definition tie_rates : rates :=
  [("EUR", PyInt 1); ("XAU", PyFloat (float_literal 125 1000))].

(** [every P s]: all the characters of [s] satisfy [P]. *)
Fixpoint every (P : ascii -> bool) (s : string) : bool :=
  match s with
  | EmptyString => true
  | String c r => P c && every P r
  end.

(** A letter that no text [float] accepts holds: a letter other than those
    of [e], [inf], [infinity] and [nan], in either case. *)
Definition foreign_letter (c : ascii) : bool :=
  let n := nat_of_ascii c in
  let lower := if ((65 <=? n) && (n <=? 90))%nat then (n + 32)%nat else n in
  ((97 <=? lower) && (lower <=? 122))%nat
  && negb (existsb (Nat.eqb lower) [97; 101; 102; 105; 110; 116; 121]%nat).

Definition has_foreign_letter (s : string) : bool :=
  negb (every (fun c => negb (foreign_letter c)) s).

(** The targets the rates do not hold, in the order of the list. *)
Definition unknown_targets (currency_rates : rates) (targets : list string)
    : list string :=
  filter (fun c => negb (dict_mem String.eqb currency_rates c)) targets.

(** A date written as two digits, two digits and four digits between
    slashes. *)
Definition digits_date (d1 d2 m1 m2 y1 y2 y3 y4 : ascii) : string :=
  String d1 (String d2 (String "/" (String m1 (String m2 (String "/"
    (String y1 (String y2 (String y3 (String y4 EmptyString))))))))).

(** Worlds for the examples: an archive with a key that is no timestamp
    between yesterday's entry and today's; an archive with two entries of
    2017-07-14, an hour apart. *)
Definition archived_bad_key : world :=
  {| stdout := [];
     archive_file := Content [("1499904000", [("USD", PyInt 1)]);
                              ("yesterday", test_rates);
                              ("1500000000", test_rates)];
     requests := [] |}.

Definition archived_twice_today : world :=
  {| stdout := [];
     archive_file := Content [("1500000000", test_rates);
                              ("1500003600", [("USD", PyInt 1)])];
     requests := [] |}.

(* ================================================================== *)
(** ** Running a method *)

Ltac run :=
  cbv beta iota delta
    [bind ret raise lift exit print try_except find_clause send
     read_archive] in *.

(* ================================================================== *)
(** ** The builtins on known values *)

Example test_py_int :
  map py_int [" 12 "; "+7"; "-0"; "007"; "1_000"; "1 2"; "_1"; "1_"; "12a"; ""]
  = [Return 12; Return 7; Return 0; Return 7; Return 1000;
     Raise (ValueError BuiltinValueError); Raise (ValueError BuiltinValueError);
     Raise (ValueError BuiltinValueError); Raise (ValueError BuiltinValueError);
     Raise (ValueError BuiltinValueError)].
Proof. reflexivity. Qed.

(** The separators U+001C..U+001F are not stripped by [int], a line feed
    and U+00A0 are: a date that opens with U+001C is refused. *)
Example test_py_int_space :
  map py_int [String "028" "1"; String "031" "1"; String "010" "1";
              String "160" "1"]
  = [Raise (ValueError BuiltinValueError); Raise (ValueError BuiltinValueError);
     Return 1; Return 1]
  /\ well_formed_date 2017 (String "028" "1/02/2017") = false.
Proof. split; reflexivity. Qed.

Example test_split :
  map (split "/") ["01/04/2017"; "01-04-2100"; "a//b"; ""]
  = [["01"; "04"; "2017"]; ["01-04-2100"]; ["a"; ""; "b"]; [""]].
Proof. reflexivity. Qed.

(** The epoch, the last second of a day, a day before the epoch, the leap
    day of 2000 and the day after, the limits of [utcfromtimestamp]. *)
Example test_utcfromtimestamp :
  map utcfromtimestamp
    [0; 86399; -1; 951782400; 951868800; 1500000000;
     253402300799; 253402300800; -62135596800]
  = [Return {| dt_year := 1970; dt_month := 1; dt_day := 1 |};
     Return {| dt_year := 1970; dt_month := 1; dt_day := 1 |};
     Return {| dt_year := 1969; dt_month := 12; dt_day := 31 |};
     Return {| dt_year := 2000; dt_month := 2; dt_day := 29 |};
     Return {| dt_year := 2000; dt_month := 3; dt_day := 1 |};
     Return {| dt_year := 2017; dt_month := 7; dt_day := 14 |};
     Return {| dt_year := 9999; dt_month := 12; dt_day := 31 |};
     Raise (ValueError BuiltinValueError);
     Return {| dt_year := 1; dt_month := 1; dt_day := 1 |}].
Proof. reflexivity. Qed.

Example test_strptime :
  map strptime_ymd
    ["2017-04-01"; "2017-4-1"; "2016-02-29"; "2017-02-29"; "2017-13-01";
     "2017-01-35"; "latest"]
  = [Return {| dt_year := 2017; dt_month := 4; dt_day := 1 |};
     Return {| dt_year := 2017; dt_month := 4; dt_day := 1 |};
     Return {| dt_year := 2016; dt_month := 2; dt_day := 29 |};
     Raise (ValueError BuiltinValueError);
     Raise (ValueError BuiltinValueError);
     Raise (ValueError BuiltinValueError);
     Raise (ValueError BuiltinValueError)].
Proof. reflexivity. Qed.

(** [round(2.675, 2) == 2.67] (the [float] 2.675 is below the decimal),
    [round(0.125, 2) == 0.12] (a tie goes to the even digit),
    [round(-0.001, 2) == -0.0]. *)
Example test_py_round2 :
  map py_round2
    [float_literal 2675 1000; float_literal 125 1000; float_literal (-1) 1000;
     float_of_Z 5000]
  = [float_literal 267 100; float_literal 12 100; S754_zero true;
     float_of_Z 5000].
Proof. vm_compute. reflexivity. Qed.

(* ================================================================== *)
(** ** The date setter *)

Lemma in_py_range (lo hi x : Z) :
  In x (py_range lo hi) <-> lo <= x < hi.
Proof.
  unfold py_range. rewrite in_map_iff. split.
  - intros [i [<- Hi]]. apply in_seq in Hi. lia.
  - intros H. exists (Z.to_nat (x - lo)). split; [lia|].
    apply in_seq. lia.
Qed.

(** No year passes the leap-year test: [range(2000, year)] stops short of
    [year]. *)
Lemma leap_test_false (year : Z) : leap_test year = false.
Proof.
  unfold leap_test, z_in.
  destruct (existsb _ _) eqn:E; [|reflexivity].
  apply existsb_exists in E. destruct E as [x [Hin Hx]].
  apply filter_In in Hin. destruct Hin as [Hin _].
  apply in_py_range in Hin. apply Z.eqb_eq in Hx. lia.
Qed.

Lemma py_int_raises (s : string) (e : exn) :
  py_int s = Raise e -> e = ValueError BuiltinValueError.
Proof.
  unfold py_int.
  destruct (match strip s with
            | String "+" r => (false, r)
            | String "-" r => (true, r)
            | _ => (false, strip s)
            end) as [neg body].
  destruct body as [|c r]; [congruence|].
  destruct (int_digits (String c r) false 0);
    repeat match goal with
           | |- context [match ?x with _ => _ end] => destruct x
           end; congruence.
Qed.

Lemma check_date_raises (cy : Z) (s : string) (e : exn) :
  check_date cy s = Raise e ->
  caught e [CTypeError; CValueError; CDateError] = true.
Proof.
  unfold check_date.
  destruct (negb (strlen s =? 10)); [intros [= <-]; reflexivity|].
  unfold make_parsed_date.
  destruct (split "/" s) as [|d [|m [|y [|]]]]; simpl;
    try (intros [= <-]; reflexivity).
  destruct (py_int y) eqn:Ey; simpl;
    [|intros [= <-]; apply py_int_raises in Ey; subst; reflexivity].
  destruct (py_int m) eqn:Em; simpl;
    [|intros [= <-]; apply py_int_raises in Em; subst; reflexivity].
  destruct (py_int d) eqn:Ed; simpl;
    [|intros [= <-]; apply py_int_raises in Ed; subst; reflexivity].
  repeat match goal with
         | |- context [if ?b then _ else _] => destruct b; simpl
         end; intros [= <-]; reflexivity.
Qed.

Lemma check_date_well_formed (cy : Z) (s : string) (p : parsed_date) :
  check_date cy s = Return p -> well_formed_date cy s = true.
Proof.
  unfold check_date, well_formed_date, obind.
  destruct (strlen s =? 10); cbn [negb andb]; [|discriminate].
  unfold make_parsed_date.
  destruct (split "/" s) as [|d [|m [|y [|]]]]; try discriminate.
  cbn [pd_year pd_month pd_day].
  destruct (py_int y) as [year|]; [|discriminate].
  destruct (py_int m) as [month|]; [|discriminate].
  destruct (py_int d) as [day|]; [|discriminate].
  rewrite leap_test_false, andb_false_r.
  destruct ((2000 <=? year) && (year <=? cy)) eqn:Hy; cbn [negb]; [|discriminate].
  destruct ((1 <=? month) && (month <=? 12)) eqn:Hm; cbn [negb]; [|discriminate].
  destruct ((month =? 2) && (28 <? day)) eqn:Hfeb; [discriminate|].
  destruct ((1 <=? day) && (day <=? 31)) eqn:Hd; cbn [negb]; [|discriminate].
  destruct ((day =? 31) && negb (z_in month [1; 3; 5; 7; 8; 10; 12])) eqn:H31;
    [discriminate|].
  intros _.
  apply andb_true_iff in Hy, Hm, Hd.
  destruct Hy as [Hy1 Hy2], Hm as [Hm1 Hm2], Hd as [Hd1 Hd2].
  rewrite ?Hy1, ?Hy2, ?Hm1, ?Hm2, ?Hd1. cbn [andb].
  rewrite ?Hy1, ?Hy2, ?Hm1, ?Hm2, ?Hd1. cbn [andb].
  apply Z.leb_le in Hm1, Hm2, Hd1, Hd2. apply Z.leb_le.
  assert (Hcases : month = 1 \/ month = 2 \/ month = 3 \/ month = 4
                   \/ month = 5 \/ month = 6 \/ month = 7 \/ month = 8
                   \/ month = 9 \/ month = 10 \/ month = 11 \/ month = 12)
    by lia.
  unfold days_in_month.
  repeat destruct Hcases as [-> | Hcases]; try subst month; simpl in *;
    try lia;
    try (destruct (day =? 31) eqn:E31; simpl in H31;
         [discriminate | apply Z.eqb_neq in E31; lia]).
  destruct (28 <? day) eqn:E28; [discriminate|].
  apply Z.ltb_ge in E28. destruct (is_leap year); lia.
Qed.

Lemma print_twice (a b : message) (w : world) :
  (print a ;; print b ;; ret "latest") w
  = (Return "latest",
     {| stdout := stdout w ++ [a; b];
        archive_file := archive_file w;
        requests := requests w |}).
Proof.
  run. cbn [stdout archive_file requests].
  rewrite <- app_assoc. reflexivity.
Qed.

(** A date the checks refuse is replaced by ["latest"], after the error and
    the choice are printed. *)
Lemma date_setter_refused (e : env) (raw : string) (err : exn) (w : world) :
  check_date (dt_year (now e)) raw = Raise err ->
  date_setter e (Some raw) w
  = (Return "latest",
     {| stdout := stdout w ++ [MsgError err; MsgUsingRates "latest"];
        archive_file := archive_file w;
        requests := requests w |}).
Proof.
  intros H. unfold date_setter. rewrite H.
  rewrite (check_date_raises _ _ _ H). apply print_twice.
Qed.

(** The unit tests of the setter ([ConverterTestInit]), in the year 2017. *)
Example test_init (w : world) :
  let e := {| now := {| dt_year := 2017; dt_month := 7; dt_day := 14 |};
              provider := fun _ => NoConnection;
              archive_disk := Writable;
              currency_table := Missing |} in
  map (fun raw => fst (date_setter e (Some raw) w))
    ["00/04/2017"; "32/03/2017"; "01/1/2017"; "31/04/2016"; "29/02/2014";
     "01/00/2017"; "01/13/2017"; "01/04/2100"; "01/04/1999"; "01-04-2100";
     "2017/01/01"; "01/04/2017"; "01/01/2000"]
  = [Return "latest"; Return "latest"; Return "latest"; Return "latest";
     Return "latest"; Return "latest"; Return "latest"; Return "latest";
     Return "latest"; Return "latest"; Return "latest";
     Return "2017-04-01"; Return "2000-01-01"].
Proof. reflexivity. Qed.

(** C1 (as the code behaves).  Whatever follows ["29/02/"], and whatever
    the current year is, the setter assigns ["latest"]: the 29th of February
    is refused for every year, the leap years before the current year
    included, because the list the year is looked up in, built from
    [range(2000, year)], never holds [year] itself. *)
Theorem feb29_always_latest (e : env) (yyyy : string) (w : world) :
  fst (date_setter e (Some ("29/02/" ++ yyyy)%string) w) = Return "latest".
Proof.
  destruct (check_date (dt_year (now e)) ("29/02/" ++ yyyy)) as [p|err] eqn:H.
  - exfalso. revert H. unfold check_date, obind.
    destruct (negb (strlen ("29/02/" ++ yyyy) =? 10)); [discriminate|].
    cbn [split append Ascii.eqb Bool.eqb].
    unfold make_parsed_date.
    destruct (split "/" yyyy) as [|y [|]]; try discriminate.
    cbn [pd_year pd_month pd_day].
    destruct (py_int y) as [year|]; [|discriminate].
    change (py_int "02") with (Return (A := Z) 2).
    change (py_int "29") with (Return (A := Z) 29).
    cbv beta iota.
    destruct (negb ((2000 <=? year) && (year <=? dt_year (now e))));
      [discriminate|].
    rewrite leap_test_false. discriminate.
  - rewrite (date_setter_refused _ _ _ _ H). reflexivity.
Qed.

(** The failing input of C1: in 2017 the text ["29/02/2016"] names a day of
    the calendar, 2016 is a leap year before the current year, and the
    setter still assigns ["latest"], printing "Day out of range.". *)
Example feb29_2016 (w : world) :
  let e := {| now := {| dt_year := 2017; dt_month := 7; dt_day := 14 |};
              provider := fun _ => NoConnection;
              archive_disk := Writable;
              currency_table := Missing |} in
  well_formed_date 2017 "29/02/2016" = true
  /\ date_setter e (Some "29/02/2016") w
     = (Return "latest",
        {| stdout := stdout w ++ [MsgError (DateError DayRange);
                                  MsgUsingRates "latest"];
           archive_file := archive_file w;
           requests := requests w |}).
Proof.
  split; [reflexivity|].
  apply date_setter_refused. reflexivity.
Qed.

(** C6.  The date setter returns for every input, it never raises.  For
    [None] it assigns ["latest"] and prints only that choice.  For every
    text that is not a well-formed date (wrong length, wrong delimiters, a
    field that is not a number, a year outside 2000..current year, a month
    outside 1..12, a day outside the month's calendar) it assigns ["latest"]
    too, the failure being printed and nothing more. *)
Theorem date_setter_never_raises (e : env) (input : option string) (w : world) :
  exists (d : string) (w' : world),
    date_setter e input w = (Return d, w')
    /\ archive_file w' = archive_file w
    /\ requests w' = requests w
    /\ (input = None ->
        d = "latest" /\ stdout w' = stdout w ++ [MsgUsingRates "latest"])
    /\ (forall raw : string,
          input = Some raw ->
          well_formed_date (dt_year (now e)) raw = false ->
          d = "latest"
          /\ exists err : exn,
               stdout w' = stdout w ++ [MsgError err; MsgUsingRates "latest"]).
Proof.
  destruct input as [raw|].
  - destruct (check_date (dt_year (now e)) raw) as [p|err] eqn:H.
    + eexists. eexists. split.
      * unfold date_setter. rewrite H. run. reflexivity.
      * cbn [stdout archive_file requests].
        split; [reflexivity|]. split; [reflexivity|].
        split; [discriminate|].
        intros raw' [= <-] Hwf.
        rewrite (check_date_well_formed _ _ _ H) in Hwf. discriminate.
    + eexists. eexists. split; [apply (date_setter_refused _ _ _ _ H)|].
      cbn [stdout archive_file requests].
      split; [reflexivity|]. split; [reflexivity|].
      split; [discriminate|].
      intros raw' _ _. split; [reflexivity|].
      exists err. reflexivity.
  - eexists. eexists. split; [reflexivity|].
    cbn [stdout archive_file requests].
    split; [reflexivity|]. split; [reflexivity|].
    split; [intros _; split; reflexivity|].
    discriminate.
Qed.

(* ================================================================== *)
(** ** Symbols and target currencies *)

Lemma translate_symbol_missing (e : env) (currency : option string) (w : world) :
  currency_table e = Missing ->
  translate_symbol e currency w = (Raise (SystemExit 1), symbols_report w).
Proof.
  intros H. unfold translate_symbol, symbols_report. run. rewrite H.
  cbn. rewrite <- app_assoc. reflexivity.
Qed.

Lemma translate_symbol_malformed (e : env) (currency : option string) (w : world) :
  currency_table e = Malformed ->
  translate_symbol e currency w = (Raise JSONDecodeError, w).
Proof.
  intros H. unfold translate_symbol. run. rewrite H. reflexivity.
Qed.

Lemma translate_symbol_content (e : env) (currency : option string) (w : world)
    (members : list (string * list string)) :
  currency_table e = Content members ->
  translate_symbol e currency w
  = (Return match lookup (dict_of_members String.eqb members) currency with
            | Some currencies => currencies
            | None => []
            end, w).
Proof.
  intros H. unfold translate_symbol. run. rewrite H. cbn [read_json].
  destruct (lookup _ currency); reflexivity.
Qed.

(** C10.  [translate_symbol] by the state of the symbol-table file.  When
    the file cannot be opened the failure is printed and the program exits;
    when the file opens but is not JSON the decoding error is an instance of
    neither [IOError] nor [KeyError], so it leaves the method as it is, with
    nothing printed; when the table loads, the symbol's codes are returned,
    the empty list for a symbol (or [None]) the table does not hold.  So the
    exit happens only for an unreadable file. *)
Theorem translate_symbol_failures (e : env) (currency : option string) (w : world) :
  match currency_table e with
  | Missing =>
      translate_symbol e currency w = (Raise (SystemExit 1), symbols_report w)
  | Malformed =>
      translate_symbol e currency w = (Raise JSONDecodeError, w)
      /\ caught JSONDecodeError [CIOError] = false
      /\ caught JSONDecodeError [CKeyError] = false
  | Content members =>
      let table := dict_of_members String.eqb members in
      (lookup table currency = None ->
       translate_symbol e currency w = (Return [], w))
      /\ (forall currencies, lookup table currency = Some currencies ->
          translate_symbol e currency w = (Return currencies, w))
  end
  /\ (fst (translate_symbol e currency w) = Raise (SystemExit 1)
      <-> currency_table e = Missing).
Proof.
  destruct (currency_table e) as [| |members] eqn:H.
  - rewrite (translate_symbol_missing _ _ _ H). cbn [fst]. tauto.
  - rewrite (translate_symbol_malformed _ _ _ H). cbn [fst].
    repeat split; discriminate.
  - rewrite (translate_symbol_content _ _ _ _ H). cbn [fst].
    repeat split; try discriminate.
    + intros ->. reflexivity.
    + intros currencies ->. reflexivity.
Qed.

Lemma wrong_length_spec (s : string) :
  s <> "" -> String.length s <> 3%nat -> wrong_length (Some s) = true.
Proof.
  intros Hne Hlen. unfold wrong_length, strlen.
  destruct s as [|c r]; [congruence|].
  apply andb_true_iff. split; apply negb_true_iff, Z.eqb_neq.
  - cbn [String.length]. lia.
  - lia.
Qed.

(** C7.  A source currency that is not a key of the rates, [None] and an
    unknown code included, makes [get_target_currencies] raise a
    [ValueError] whatever the target is, before the symbol table is read
    and with nothing printed; a non-empty source that is not three
    characters long is refused by the length test, which comes first, even
    when it is a key of the rates. *)
Theorem unknown_source_rejected (e : env) (currency_rates : rates)
    (original_currency target_currency : option string) (w : world) :
  (member currency_rates original_currency = false ->
   exists v : value_error,
     get_target_currencies e currency_rates original_currency target_currency w
     = (Raise (ValueError v), w))
  /\ (forall s : string,
        original_currency = Some s -> s <> "" -> String.length s <> 3%nat ->
        get_target_currencies e currency_rates original_currency target_currency w
        = (Raise (ValueError SymbolAsInput), w)).
Proof.
  unfold get_target_currencies. split.
  - intros H. rewrite H. cbn [negb].
    destruct (wrong_length original_currency); eexists; reflexivity.
  - intros s -> Hne Hlen. rewrite (wrong_length_spec s Hne Hlen). reflexivity.
Qed.

(** C4.  For a valid source (three characters, a key of the rates) and a
    symbol table that loads, the targets are: the codes the table gives for
    the target when that list is not empty, even if the target is also a key
    of the rates; else the target alone when it is a key of the rates; else,
    for an unknown target or [None], all the keys of the rates. *)
Theorem target_precedence (e : env) (currency_rates : rates)
    (source : string) (target_currency : option string) (w : world)
    (members : list (string * list string)) :
  String.length source = 3%nat ->
  dict_mem String.eqb currency_rates source = true ->
  currency_table e = Content members ->
  let table := dict_of_members String.eqb members in
  let result :=
    get_target_currencies e currency_rates (Some source) target_currency w in
  (forall codes, lookup table target_currency = Some codes -> codes <> [] ->
     result = (Return codes, w))
  /\ (lookup table target_currency = None
      \/ lookup table target_currency = Some [] ->
      forall t, target_currency = Some t ->
        dict_mem String.eqb currency_rates t = true ->
        result = (Return [t], w))
  /\ (lookup table target_currency = None
      \/ lookup table target_currency = Some [] ->
      member currency_rates target_currency = false ->
      result = (Return (dict_keys currency_rates), w)).
Proof.
  intros Hlen Hmem Htable table result.
  assert (Hresult :
    result = (bind (translate_symbol e target_currency)
                (fun target_currencies =>
                   match target_currencies with
                   | _ :: _ => ret target_currencies
                   | [] =>
                       match target_currency with
                       | Some t =>
                           if dict_mem String.eqb currency_rates t then ret [t]
                           else ret (dict_keys currency_rates)
                       | None => ret (dict_keys currency_rates)
                       end
                   end)) w).
  { unfold result, get_target_currencies, wrong_length, strlen.
    rewrite Hlen. cbn [Z.of_nat Z.eqb Pos.eqb negb andb Pos.of_succ_nat Pos.succ].
    unfold member, lookup. unfold dict_mem in Hmem.
    destruct (dict_get String.eqb currency_rates source); [|discriminate].
    reflexivity. }
  rewrite Hresult. unfold bind.
  rewrite (translate_symbol_content _ _ _ _ Htable). fold table.
  split; [|split].
  - intros codes -> Hne. destruct codes; [congruence|reflexivity].
  - intros Hsym t -> Ht.
    assert (Hnil : match lookup table (Some t) with
                   | Some c => c | None => [] end = []).
    { destruct Hsym as [-> | ->]; reflexivity. }
    rewrite Hnil, Ht. reflexivity.
  - intros Hsym Hnot.
    assert (Hnil : match lookup table target_currency with
                   | Some c => c | None => [] end = []).
    { destruct Hsym as [-> | ->]; reflexivity. }
    rewrite Hnil. destruct target_currency as [t|]; [|reflexivity].
    unfold member, lookup in Hnot. unfold dict_mem. 
    destruct (dict_get String.eqb currency_rates t); [discriminate|reflexivity].
Qed.

(* ================================================================== *)
(** ** Dictionaries *)

Section DictFacts.
Context {K V : Type} (eqb : K -> K -> bool).
Hypothesis eqb_spec : forall a b : K, eqb a b = true <-> a = b.

Lemma eqb_same (k : K) : eqb k k = true.
Proof. apply eqb_spec. reflexivity. Qed.

Lemma eqb_differ (a b : K) : a <> b -> eqb a b = false.
Proof.
  intros H. destruct (eqb a b) eqn:E; [|reflexivity].
  apply eqb_spec in E. contradiction.
Qed.

Lemma dict_get_set_same (d : list (K * V)) (k : K) (v : V) :
  dict_get eqb (dict_set eqb d k v) k = Some v.
Proof.
  induction d as [|[k' v'] d IH]; cbn.
  - rewrite eqb_same. reflexivity.
  - destruct (eqb k' k) eqn:E; cbn; rewrite E; [reflexivity | exact IH].
Qed.

Lemma dict_get_set_other (d : list (K * V)) (k k' : K) (v : V) :
  k' <> k -> dict_get eqb (dict_set eqb d k v) k' = dict_get eqb d k'.
Proof.
  intros Hne. induction d as [|[k0 v0] d IH]; cbn.
  - rewrite eqb_differ; [reflexivity | congruence].
  - destruct (eqb k0 k) eqn:E; cbn.
    + apply eqb_spec in E. subst k0.
      rewrite eqb_differ; [reflexivity | congruence].
    + rewrite IH. reflexivity.
Qed.

Lemma dict_set_fresh (d : list (K * V)) (k : K) (v : V) :
  ~ In k (dict_keys d) -> dict_set eqb d k v = d ++ [(k, v)].
Proof.
  induction d as [|[k' v'] d IH]; cbn; intros H; [reflexivity|].
  rewrite eqb_differ; [rewrite IH; [reflexivity|] | ]; intuition.
Qed.

Lemma dict_keys_set (d : list (K * V)) (k x : K) (v : V) :
  In x (dict_keys (dict_set eqb d k v)) <-> In x (dict_keys d) \/ x = k.
Proof.
  induction d as [|[k' v'] d IH]; cbn.
  - intuition.
  - destruct (eqb k' k) eqn:E; cbn.
    + apply eqb_spec in E. subst k'. intuition.
    + rewrite IH. intuition.
Qed.

Lemma dict_set_nodup (d : list (K * V)) (k : K) (v : V) :
  NoDup (dict_keys d) -> NoDup (dict_keys (dict_set eqb d k v)).
Proof.
  induction d as [|[k' v'] d IH]; cbn; intros H.
  - constructor; [intros [] | constructor].
  - inversion H as [|? ? Hnotin Hd]; subst.
    destruct (eqb k' k) eqn:E; cbn.
    + constructor; assumption.
    + constructor; [|apply IH, Hd].
      intros Hin. apply dict_keys_set in Hin. destruct Hin as [Hin | ->].
      * contradiction.
      * rewrite eqb_same in E. discriminate.
Qed.

Lemma fold_set_nodup (members acc : list (K * V)) :
  NoDup (dict_keys acc) ->
  NoDup (dict_keys
           (fold_left (fun d kv => dict_set eqb d (fst kv) (snd kv)) members acc)).
Proof.
  revert acc. induction members as [|[k v] members IH]; cbn; intros acc H.
  - exact H.
  - apply IH, dict_set_nodup, H.
Qed.

(** The keys of a loaded dictionary are distinct. *)
Lemma dict_of_members_nodup (members : list (K * V)) :
  NoDup (dict_keys (dict_of_members eqb members)).
Proof. apply fold_set_nodup. constructor. Qed.

Lemma fold_set_distinct (d acc : list (K * V)) :
  NoDup (dict_keys (acc ++ d)) ->
  fold_left (fun d kv => dict_set eqb d (fst kv) (snd kv)) d acc = acc ++ d.
Proof.
  revert acc. induction d as [|[k v] d IH]; cbn; intros acc H.
  - rewrite app_nil_r. reflexivity.
  - rewrite dict_set_fresh.
    + rewrite IH; rewrite <- app_assoc; [reflexivity | exact H].
    + unfold dict_keys in *. rewrite map_app in H. cbn in H.
      apply NoDup_remove_2 in H. intros Hin. apply H.
      apply in_or_app. left. exact Hin.
Qed.

(** Dumping a dictionary and loading it again gives it back. *)
Lemma dict_of_members_distinct (d : list (K * V)) :
  NoDup (dict_keys d) -> dict_of_members eqb d = d.
Proof. intros H. apply (fold_set_distinct d []). exact H. Qed.

Lemma dict_of_members_snoc (members : list (K * V)) (k : K) (v : V) :
  dict_of_members eqb (members ++ [(k, v)])
  = dict_set eqb (dict_of_members eqb members) k v.
Proof. unfold dict_of_members. rewrite fold_left_app. reflexivity. Qed.
End DictFacts.

Lemma string_eqb_spec (a b : string) : String.eqb a b = true <-> a = b.
Proof. apply String.eqb_eq. Qed.

(* ================================================================== *)
(** ** Decimal numerals: [int(str(z)) == z] *)

Lemma digit_no_space (c : ascii) : is_digit c = true -> is_space c = false.
Proof.
  destruct c as [[] [] [] [] [] [] [] []]; intros H;
    solve [reflexivity | discriminate H].
Qed.

Lemma all_digits_no_space (s : string) : all_digits s = true -> no_space s = true.
Proof.
  induction s as [|c r IH]; cbn; [reflexivity|].
  intros H. apply andb_true_iff in H. destruct H as [Hc Hr].
  rewrite (digit_no_space c Hc), (IH Hr). reflexivity.
Qed.

Lemma lstrip_no_space (s : string) : no_space s = true -> lstrip s = s.
Proof.
  destruct s as [|c r]; cbn; [reflexivity|].
  intros H. apply andb_true_iff in H. destruct H as [Hc _].
  apply negb_true_iff in Hc. rewrite Hc. reflexivity.
Qed.

Lemma rstrip_no_space (s : string) : no_space s = true -> rstrip s = s.
Proof.
  induction s as [|c r IH]; cbn; [reflexivity|].
  intros H. apply andb_true_iff in H. destruct H as [Hc Hr].
  apply negb_true_iff in Hc. rewrite (IH Hr), Hc.
  destruct r; reflexivity.
Qed.

Lemma strip_no_space (s : string) : no_space s = true -> strip s = s.
Proof.
  intros H. unfold strip. rewrite (lstrip_no_space s H).
  apply rstrip_no_space, H.
Qed.

Lemma all_digits_uint (d : Decimal.uint) :
  all_digits (NilEmpty.string_of_uint d) = true.
Proof. induction d; cbn; auto. Qed.

Lemma int_digits_step (c : ascii) (r : string) (acc d : Z) :
  digit_val c = Some d ->
  int_digits (String c r) false acc = int_digits r false (10 * acc + d).
Proof.
  intros H. cbn [int_digits]. rewrite H.
  destruct c as [[] [] [] [] [] [] [] []]; try discriminate H; reflexivity.
Qed.

Lemma int_digits_acc (d : Decimal.uint) (acc : positive) :
  int_digits (NilEmpty.string_of_uint d) false (Zpos acc)
  = Some (Zpos (Pos.of_uint_acc d acc)).
Proof.
  revert acc. induction d; intros acc; [reflexivity | ..];
    cbn [NilEmpty.string_of_uint Pos.of_uint_acc];
    erewrite int_digits_step by (vm_compute; reflexivity);
    rewrite <- IHd; f_equal; lia.
Qed.

Lemma int_digits_uint (d : Decimal.uint) :
  int_digits (NilEmpty.string_of_uint d) false 0
  = Some (Z.of_N (Pos.of_uint d)).
Proof.
  induction d; [reflexivity | ..];
    cbn [NilEmpty.string_of_uint Pos.of_uint];
    erewrite int_digits_step by (vm_compute; reflexivity);
    [exact IHd | ..]; apply int_digits_acc.
Qed.

Lemma py_int_digits (s : string) :
  all_digits s = true -> s <> "" ->
  py_int s = match int_digits s false 0 with
             | Some v => Return v
             | None => Raise (ValueError BuiltinValueError)
             end.
Proof.
  intros Hd Hne. unfold py_int.
  rewrite (strip_no_space s (all_digits_no_space s Hd)).
  destruct s as [|c r]; [congruence|].
  cbn [all_digits] in Hd. apply andb_true_iff in Hd. destruct Hd as [Hc _].
  destruct c as [[] [] [] [] [] [] [] []]; try discriminate Hc; reflexivity.
Qed.

Lemma py_int_minus_digits (s : string) :
  all_digits s = true -> s <> "" ->
  py_int (String "-" s) = match int_digits s false 0 with
                          | Some v => Return (- v)
                          | None => Raise (ValueError BuiltinValueError)
                          end.
Proof.
  intros Hd Hne. unfold py_int.
  rewrite strip_no_space
    by (cbn [no_space]; rewrite (all_digits_no_space s Hd); reflexivity).
  destruct s as [|c r]; [congruence|].
  cbn [all_digits] in Hd. apply andb_true_iff in Hd. destruct Hd as [Hc _].
  destruct c as [[] [] [] [] [] [] [] []]; try discriminate Hc; reflexivity.
Qed.

Lemma string_of_uint_nonempty (p : positive) :
  NilEmpty.string_of_uint (Pos.to_uint p) <> "".
Proof.
  pose proof (Unsigned.to_uint_nonnil p) as H.
  destruct (Pos.to_uint p); [congruence | ..]; discriminate.
Qed.

Lemma string_of_pos (p : positive) :
  NilZero.string_of_uint (Pos.to_uint p)
  = NilEmpty.string_of_uint (Pos.to_uint p).
Proof.
  pose proof (Unsigned.to_uint_nonnil p) as H.
  unfold NilZero.string_of_uint. destruct (Pos.to_uint p); congruence.
Qed.

(** Reading the decimal numeral of an integer gives the integer back. *)
Lemma py_int_str (z : Z) : py_int (py_str_of_int z) = Return z.
Proof.
  unfold py_str_of_int. destruct z as [|p|p]; [reflexivity | ..];
    cbn [Z.to_int NilZero.string_of_int]; rewrite string_of_pos.
  - rewrite py_int_digits
      by (apply all_digits_uint || apply string_of_uint_nonempty).
    rewrite int_digits_uint, Unsigned.of_to. reflexivity.
  - rewrite py_int_minus_digits
      by (apply all_digits_uint || apply string_of_uint_nonempty).
    rewrite int_digits_uint, Unsigned.of_to. reflexivity.
Qed.

(* ================================================================== *)
(** ** The archive *)

Lemma archive_of_nodup (w : world) : NoDup (dict_keys (archive_of w)).
Proof.
  unfold archive_of. destruct (archive_file w); cbn [read_json].
  - constructor.
  - constructor.
  - apply dict_of_members_nodup, string_eqb_spec.
Qed.

(** An [int] key is new among the [str] keys read from the file. *)
Lemma dict_set_int_key (d : list (string * rates)) (z : Z) (v : rates) :
  dict_set pykey_eqb (map (fun kv => (KStr (fst kv), snd kv)) d) (KInt z) v
  = map (fun kv => (KStr (fst kv), snd kv)) d ++ [(KInt z, v)].
Proof.
  induction d as [|[k r] d IH]; cbn; [reflexivity|].
  cbn in IH. rewrite IH. reflexivity.
Qed.

Lemma dump_loaded (d : list (string * rates)) :
  map (fun kv => (key_text (fst kv), snd kv))
      (map (fun kv : string * rates => (KStr (fst kv), snd kv)) d) = d.
Proof.
  rewrite map_map. rewrite <- (map_id d) at 2.
  apply map_ext. intros [k r]. reflexivity.
Qed.

(** What [archive_rates] does when the file can be written: the file holds
    the members loaded before, then the new one. *)
Lemma archive_rates_writable (e : env) (data : snapshot) (w : world) :
  archive_disk e = Writable ->
  archive_rates e data w
  = (Return tt,
     {| stdout := stdout w;
        archive_file :=
          Content (archive_of w
                   ++ [(py_str_of_int (timestamp data), snapshot_rates data)]);
        requests := requests w |}).
Proof.
  intros H. unfold archive_rates, write_archive, archive_of. run. rewrite H.
  destruct (archive_file w); cbn [read_json caught existsb isinstance orb];
    try reflexivity.
  rewrite dict_set_int_key, map_app, dump_loaded. reflexivity.
Qed.

(** When the file cannot be written the failure is printed and the method
    returns; the content is kept if [open] failed and lost if the write
    failed after [open] had truncated the file. *)
Lemma archive_rates_not_writable (e : env) (data : snapshot) (w : world) :
  archive_disk e <> Writable ->
  archive_rates e data w
  = (Return tt,
     {| stdout := stdout w ++ [MsgSavingFailed IOError];
        archive_file := match archive_disk e with
                        | WriteFails => Malformed
                        | _ => archive_file w
                        end;
        requests := requests w |}).
Proof.
  intros H. unfold archive_rates, write_archive. run.
  destruct w as [out file reqs]. cbn [stdout archive_file requests].
  destruct (archive_disk e); [congruence | ..];
    destruct file; reflexivity.
Qed.

Lemma archive_rates_requests (e : env) (data : snapshot) (w : world) :
  fst (archive_rates e data w) = Return tt
  /\ requests (snd (archive_rates e data w)) = requests w.
Proof.
  destruct (archive_disk e) eqn:H.
  - rewrite (archive_rates_writable _ _ _ H). split; reflexivity.
  - rewrite archive_rates_not_writable by congruence. split; reflexivity.
  - rewrite archive_rates_not_writable by congruence. split; reflexivity.
Qed.

Lemma archive_of_stored (w : world) (key : string) (v : rates) :
  dict_of_members String.eqb (archive_of w ++ [(key, v)])
  = dict_set String.eqb (archive_of w) key v.
Proof.
  rewrite dict_of_members_snoc.
  rewrite (dict_of_members_distinct String.eqb string_eqb_spec).
  - reflexivity.
  - apply archive_of_nodup.
Qed.

Lemma archive_after_store (e : env) (data : snapshot) (w : world) :
  archive_disk e = Writable ->
  fst (archive_rates e data w) = Return tt
  /\ archive_of (snd (archive_rates e data w))
     = dict_set String.eqb (archive_of w)
         (py_str_of_int (timestamp data)) (snapshot_rates data)
  /\ stdout (snd (archive_rates e data w)) = stdout w
  /\ requests (snd (archive_rates e data w)) = requests w.
Proof.
  intros H. rewrite (archive_rates_writable _ _ _ H). cbn [fst snd].
  split; [reflexivity|]. split; [|split; reflexivity].
  unfold archive_of at 1. cbn [archive_file read_json].
  apply archive_of_stored.
Qed.

(** C8.  When the archive file can be written, storing a snapshot returns
    and leaves an archive that is the one loaded before with the rates of
    the snapshot set under the decimal numeral of its timestamp: that key
    maps to the rates of the snapshot, every other key maps to what it
    mapped to before, and no key is lost.  A file that could not be loaded
    counts as the empty archive. *)
Theorem store_keeps_other_entries (e : env) (data : snapshot) (w : world) :
  archive_disk e = Writable ->
  let key := py_str_of_int (timestamp data) in
  let w' := snd (archive_rates e data w) in
  fst (archive_rates e data w) = Return tt
  /\ archive_of w' = dict_set String.eqb (archive_of w) key (snapshot_rates data)
  /\ dict_get String.eqb (archive_of w') key = Some (snapshot_rates data)
  /\ (forall k : string,
        k <> key ->
        dict_get String.eqb (archive_of w') k = dict_get String.eqb (archive_of w) k)
  /\ (forall k : string,
        In k (dict_keys (archive_of w)) -> In k (dict_keys (archive_of w'))).
Proof.
  intros H key w'.
  destruct (archive_after_store e data w H) as [Hret [Hw' _]].
  fold w' in Hw'. fold key in Hw'.
  split; [exact Hret|].
  split; [exact Hw'|]. rewrite Hw'.
  split; [apply dict_get_set_same, string_eqb_spec|].
  split.
  - intros k Hk. apply dict_get_set_other; [apply string_eqb_spec | exact Hk].
  - intros k Hk. apply (dict_keys_set String.eqb string_eqb_spec). left. exact Hk.
Qed.

Lemma store_keeps_other_entries_witness :
  let w' := snd (archive_rates test_env test_snapshot archived_yesterday) in
  archive_disk test_env = Writable
  /\ archive_of archived_yesterday = [("1499904000", [("USD", PyInt 1)])]
  /\ dict_get String.eqb (archive_of w') "1500000000" = Some test_rates
  /\ dict_get String.eqb (archive_of w') "1499904000" = Some [("USD", PyInt 1)]
  /\ In "1499904000" (dict_keys (archive_of w')).
Proof.
  pose proof (store_keeps_other_entries test_env test_snapshot archived_yesterday
                eq_refl) as H.
  cbv zeta in H. destruct H as [_ [_ [Hnew [Hold Hkeys]]]].
  intros w'. split; [reflexivity|]. split; [reflexivity|].
  split; [exact Hnew|]. split.
  - unfold w'. rewrite (Hold "1499904000"); [reflexivity|].
    intros E. vm_compute in E. discriminate E.
  - apply Hkeys. left. reflexivity.
Defined.

(* ================================================================== *)
(** ** Looking a date up *)

Lemma same_day_refl (d : ymd) : same_day d d = true.
Proof. unfold same_day. rewrite !Z.eqb_refl. reflexivity. Qed.

(** The key [archive_rates] writes for a timestamp reads back as it. *)
Lemma key_date_stored (t : Z) : key_date (py_str_of_int t) = utcfromtimestamp t.
Proof. unfold key_date, float_of_key. rewrite py_int_str. reflexivity. Qed.

(** The loop passes over the keys of other days. *)
Lemma search_archive_skip (date : ymd) (data : list (string * rates))
    (pre rest : list string) :
  Forall (other_day date) pre ->
  search_archive date data (pre ++ rest) = search_archive date data rest.
Proof.
  induction 1 as [|key pre [saved [Hkey Hday]] _ IH]; [reflexivity|].
  cbn [app search_archive]. rewrite Hkey. cbn [obind]. rewrite Hday. exact IH.
Qed.

Lemma search_archive_miss (date : ymd) (data : list (string * rates))
    (keys : list string) :
  Forall (other_day date) keys -> search_archive date data keys = Return None.
Proof.
  intros H. rewrite <- (app_nil_r keys).
  rewrite (search_archive_skip _ _ _ _ H). reflexivity.
Qed.

Lemma dict_get_first (pre post : list (string * rates)) (key : string) (r : rates) :
  ~ In key (dict_keys pre) ->
  dict_get String.eqb (pre ++ (key, r) :: post) key = Some r.
Proof.
  induction pre as [|[k v] pre IH]; cbn; intros H.
  - rewrite String.eqb_refl. reflexivity.
  - destruct (String.eqb k key) eqn:E.
    + apply String.eqb_eq in E. tauto.
    + apply IH. tauto.
Qed.

(** The loop returns the rates of the first key of the day. *)
Lemma search_archive_hit (date saved : ymd) (pre post : list (string * rates))
    (key : string) (r : rates) :
  Forall (other_day date) (dict_keys pre) ->
  key_date key = Return saved ->
  same_day date saved = true ->
  search_archive date (pre ++ (key, r) :: post)
    (dict_keys (pre ++ (key, r) :: post)) = Return (Some r).
Proof.
  intros Hpre Hkey Hday.
  unfold dict_keys. rewrite map_app. cbn [map fst].
  rewrite (search_archive_skip _ _ _ _ Hpre).
  cbn [search_archive]. rewrite Hkey. cbn [obind]. rewrite Hday.
  rewrite dict_get_first; [reflexivity|].
  intros Hin. rewrite Forall_forall in Hpre.
  destruct (Hpre key Hin) as [saved' [Hkey' Hday']]. congruence.
Qed.

Lemma read_archive_of (w : world) :
  read_json (archive_file w) = Return (archive_of w)
  \/ (archive_of w = []
      /\ exists err, read_json (archive_file w) = Raise err
                     /\ caught err [CIOError; CValueError] = true).
Proof.
  unfold archive_of. destruct (archive_file w); cbn [read_json].
  - right. split; [reflexivity|]. exists IOError. split; reflexivity.
  - right. split; [reflexivity|]. exists JSONDecodeError. split; reflexivity.
  - left. reflexivity.
Qed.

(** [get_rates] once the date to look up is known: a hit returns the
    archived rates and touches nothing, a miss downloads and archives, and
    an archive that cannot be loaded is a miss. *)
Lemma get_rates_lookup (e : env) (self_date : string) (date : ymd) (w : world) :
  (if String.eqb self_date "latest" then Return (now e)
   else strptime_ymd self_date) = Return date ->
  get_rates e self_date w
  = match search_archive date (archive_of w) (dict_keys (archive_of w)) with
    | Return (Some rates) => (Return rates, w)
    | Return None => download_and_archive e self_date w
    | Raise err => (Raise err, w)
    end.
Proof.
  intros Hdate. unfold get_rates. run.
  destruct (read_archive_of w) as [Hread | [Hnil [err [Hread Hcaught]]]];
    rewrite Hread.
  - destruct (String.eqb self_date "latest");
      [injection Hdate as -> | rewrite Hdate];
      destruct (search_archive date (archive_of w) (dict_keys (archive_of w)))
        as [[r|]|]; reflexivity.
  - rewrite Hnil. cbn [dict_keys map search_archive]. rewrite Hcaught.
    destruct (download_and_archive e self_date w) as [[r|err'] w']; reflexivity.
Qed.

(** C5.  Store a snapshot (the file being writable) in an archive none of
    whose keys is a timestamp of the snapshot's UTC day; then [get_rates],
    asked for that day, returns the rates of the snapshot as they were
    stored, without sending a request and without touching the archive. *)
Theorem stored_snapshot_is_found (e : env) (data : snapshot) (w : world)
    (self_date : string) (date : ymd) :
  archive_disk e = Writable ->
  utcfromtimestamp (timestamp data) = Return date ->
  strptime_ymd self_date = Return date ->
  Forall (other_day date) (dict_keys (archive_of w)) ->
  let w' := snd (archive_rates e data w) in
  get_rates e self_date w' = (Return (snapshot_rates data), w').
Proof.
  intros Hdisk Hstamp Hparse Hother w'.
  assert (Hnot : String.eqb self_date "latest" = false).
  { destruct (String.eqb self_date "latest") eqn:E; [|reflexivity].
    apply String.eqb_eq in E. subst self_date. discriminate Hparse. }
  assert (Hfresh : ~ In (py_str_of_int (timestamp data)) (dict_keys (archive_of w))).
  { intros Hin. rewrite Forall_forall in Hother.
    destruct (Hother _ Hin) as [saved [Hkey Hday]].
    rewrite key_date_stored, Hstamp in Hkey. injection Hkey as <-.
    rewrite same_day_refl in Hday. discriminate. }
  assert (Hw' : archive_of w'
                = archive_of w
                  ++ [(py_str_of_int (timestamp data), snapshot_rates data)]).
  { unfold w'.
    rewrite (proj1 (proj2 (archive_after_store e data w Hdisk))).
    apply (dict_set_fresh String.eqb string_eqb_spec), Hfresh. }
  rewrite (get_rates_lookup e self_date date w')
    by (rewrite Hnot; exact Hparse).
  rewrite Hw'.
  rewrite (search_archive_hit date date (archive_of w) []
             (py_str_of_int (timestamp data)) (snapshot_rates data));
    [reflexivity | exact Hother | | apply same_day_refl].
  rewrite key_date_stored. exact Hstamp.
Qed.

Lemma yesterday_other_day :
  Forall (other_day {| dt_year := 2017; dt_month := 7; dt_day := 14 |})
    (dict_keys [("1499904000", [("USD", PyInt 1)])]).
Proof.
  constructor; [|constructor].
  exists {| dt_year := 2017; dt_month := 7; dt_day := 13 |}.
  split; reflexivity.
Qed.

Lemma stored_snapshot_is_found_witness :
  let w' := snd (archive_rates test_env test_snapshot archived_yesterday) in
  archive_of w'
  = [("1499904000", [("USD", PyInt 1)]); ("1500000000", test_rates)]
  /\ get_rates test_env "2017-07-14" w' = (Return test_rates, w').
Proof.
  split; [reflexivity|].
  exact (stored_snapshot_is_found test_env test_snapshot archived_yesterday
           "2017-07-14" {| dt_year := 2017; dt_month := 7; dt_day := 14 |}
           eq_refl eq_refl eq_refl yesterday_other_day).
Defined.

(** A download sends one request, for the latest rates when the date is
    ["latest"]; archiving sends none. *)
Lemma download_and_archive_requests (e : env) (self_date : string) (w : world) :
  requests (snd (download_and_archive e self_date w))
  = requests w ++ [if String.eqb self_date "latest" then LatestRates
                   else HistoricalRates self_date].
Proof.
  unfold download_and_archive, download_rates. run.
  cbn [stdout archive_file requests].
  destruct (provider e _) as [code | | | body]; try reflexivity.
  match goal with
  | |- context [archive_rates e body ?w0] =>
      pose proof (archive_rates_requests e body w0) as [Hret Hreq];
      destruct (archive_rates e body w0) as [[[]|err] w1]
  end; cbn [fst snd] in *; [exact Hreq | discriminate].
Qed.

(** C2 fails: with the date ["latest"], on 2017-07-14, an archive that
    holds an entry stamped 1500000000 (the same day) answers the call; the
    archived rates are returned and no request is sent. *)
Lemma latest_served_from_archive :
  fst (get_rates test_env "latest" archived_today) = Return test_rates
  /\ requests (snd (get_rates test_env "latest" archived_today)) = []
  /\ ~ (forall (e : env) (w : world),
          requests (snd (get_rates e "latest" w)) = requests w ++ [LatestRates]).
Proof.
  split; [reflexivity|]. split; [reflexivity|].
  intros H. specialize (H test_env archived_today).
  vm_compute in H. discriminate H.
Qed.

(** C2, amended.  With the date ["latest"], [get_rates] looks the archive
    up under today's date, the date of the local clock.  The first key
    whose UTC date is today's, the keys before it being timestamps of other
    days, answers the call: its rates are returned, no request is sent and
    nothing is written.  When every key is a timestamp of another day, or
    the archive cannot be loaded, the latest rates are downloaded and
    archived, with exactly one request. *)
Theorem latest_looks_up_today (e : env) (w : world) :
  (forall (pre post : list (string * rates)) (key : string) (r : rates)
          (saved : ymd),
      archive_of w = pre ++ (key, r) :: post ->
      Forall (other_day (now e)) (dict_keys pre) ->
      key_date key = Return saved ->
      same_day (now e) saved = true ->
      get_rates e "latest" w = (Return r, w))
  /\ (Forall (other_day (now e)) (dict_keys (archive_of w)) ->
      get_rates e "latest" w = download_and_archive e "latest" w
      /\ requests (snd (get_rates e "latest" w)) = requests w ++ [LatestRates]).
Proof.
  split.
  - intros pre post key r saved Harch Hpre Hkey Hday.
    rewrite (get_rates_lookup e "latest" (now e) w) by reflexivity.
    rewrite Harch, (search_archive_hit _ saved) by assumption. reflexivity.
  - intros Hall.
    assert (Hget : get_rates e "latest" w = download_and_archive e "latest" w).
    { rewrite (get_rates_lookup e "latest" (now e) w) by reflexivity.
      rewrite (search_archive_miss _ _ _ Hall). reflexivity. }
    split; [exact Hget|].
    rewrite Hget. apply download_and_archive_requests.
Qed.

Lemma latest_looks_up_today_witness :
  get_rates test_env "latest" archived_two_days
  = (Return test_rates, archived_two_days)
  /\ requests (snd (get_rates test_env "latest" archived_yesterday))
     = [LatestRates].
Proof.
  split.
  - exact (proj1 (latest_looks_up_today test_env archived_two_days)
             [("1499904000", [("USD", PyInt 1)])] [] "1500000000" test_rates
             {| dt_year := 2017; dt_month := 7; dt_day := 14 |}
             eq_refl yesterday_other_day eq_refl eq_refl).
  - exact (proj2 (proj2 (latest_looks_up_today test_env archived_yesterday)
                    yesterday_other_day)).
Defined.

(* ================================================================== *)
(** ** Conversion *)

Lemma to_float_finite (n : pynum) :
  finite_rate n = true -> exists f, to_float n = Return f.
Proof.
  unfold finite_rate. destruct (to_float n) as [f|]; [eauto | discriminate].
Qed.

Lemma positive_rate_finite (n : pynum) :
  positive_rate n = true -> finite_rate n = true /\ zero_rate n = false.
Proof.
  unfold positive_rate, finite_rate, zero_rate.
  destruct (to_float n) as [f|]; [|discriminate].
  intros H. split; [reflexivity|].
  destruct f; try reflexivity. discriminate H.
Qed.

(** The conversion of one amount returns when the source rate is not zero
    and raises [ZeroDivisionError] when it is. *)
Lemma rounded_conversion_cases (amount : float) (source_rate target_rate : pynum) :
  finite_rate source_rate = true ->
  finite_rate target_rate = true ->
  (zero_rate source_rate = false ->
   exists v, rounded_conversion amount source_rate target_rate = Return v)
  /\ (zero_rate source_rate = true ->
      rounded_conversion amount source_rate target_rate = Raise ZeroDivisionError).
Proof.
  intros Hs Ht.
  destruct (to_float_finite _ Hs) as [fs Hfs].
  destruct (to_float_finite _ Ht) as [ft Hft].
  unfold rounded_conversion, py_truediv, py_mul, zero_rate.
  rewrite Hfs, Hft. cbn [obind].
  split; intros ->; cbn [obind]; [eexists|]; reflexivity.
Qed.

Lemma rounded_conversion_raises (amount : float) (source_rate target_rate : pynum)
    (err : exn) :
  rounded_conversion amount source_rate target_rate = Raise err ->
  caught err [CKeyError] = false.
Proof.
  unfold rounded_conversion, py_truediv, py_mul, to_float.
  destruct source_rate as [z|f]; [destruct (float_of_Z z)|];
    destruct target_rate as [z'|f']; try destruct (float_of_Z z');
    cbn [obind];
    repeat match goal with
           | |- context [if ?b then _ else _] => destruct b; cbn [obind]
           end;
    intros [= <-]; reflexivity.
Qed.

(** One turn of the loop of [convert_currency]. *)
Lemma convert_turn (currency_rates : rates) (amount : float)
    (original_rate : pynum) (currency : string) (rest : list string)
    (output : list (string * float)) (w : world) :
  convert_loop currency_rates amount original_rate (currency :: rest) output w
  = match dict_get String.eqb currency_rates currency with
    | None =>
        convert_loop currency_rates amount original_rate rest output
          {| stdout := stdout w ++ [MsgSkipping currency];
             archive_file := archive_file w;
             requests := requests w |}
    | Some target_rate =>
        match rounded_conversion amount original_rate target_rate with
        | Return v =>
            convert_loop currency_rates amount original_rate rest
              (dict_set String.eqb output currency v) w
        | Raise err => (Raise err, w)
        end
    end.
Proof.
  cbn [convert_loop]. run.
  destruct (dict_get String.eqb currency_rates currency) as [target_rate|];
    [|reflexivity].
  destruct (rounded_conversion amount original_rate target_rate) as [v|err] eqn:H.
  - unfold rounded_conversion in H.
    destruct (py_truediv amount original_rate) as [q|]; [|discriminate H].
    cbn [obind] in H.
    destruct (py_mul q target_rate) as [p|]; [|discriminate H].
    injection H as <-. reflexivity.
  - pose proof (rounded_conversion_raises _ _ _ _ H) as Hc.
    unfold rounded_conversion in H.
    destruct (py_truediv amount original_rate) as [q|];
      [|injection H as ->; rewrite Hc; reflexivity].
    cbn [obind] in H.
    destruct (py_mul q target_rate) as [p|]; [discriminate H|].
    injection H as ->. rewrite Hc. reflexivity.
Qed.

(** When every conversion the loop makes returns, the loop returns a
    dictionary that maps the targets the rates hold to their converted
    amounts and leaves every other key as it was. *)
Lemma convert_loop_returns (currency_rates : rates) (amount : float)
    (original_rate : pynum) (targets : list string) :
  (forall c rt, In c targets ->
     dict_get String.eqb currency_rates c = Some rt ->
     exists v, rounded_conversion amount original_rate rt = Return v) ->
  forall (output : list (string * float)) (w : world),
  exists (output' : list (string * float)) (w' : world),
    convert_loop currency_rates amount original_rate targets output w
    = (Return output', w')
    /\ (forall c rt, In c targets ->
          dict_get String.eqb currency_rates c = Some rt ->
          exists v, rounded_conversion amount original_rate rt = Return v
                    /\ dict_get String.eqb output' c = Some v)
    /\ (forall c, ~ In c targets \/ dict_get String.eqb currency_rates c = None ->
          dict_get String.eqb output' c = dict_get String.eqb output c).
Proof.
  induction targets as [|t rest IH]; intros Hconv output w.
  - exists output, w. split; [reflexivity|]. split; [intros c rt []|reflexivity].
  - rewrite convert_turn.
    assert (Hrest : forall c rt, In c rest ->
              dict_get String.eqb currency_rates c = Some rt ->
              exists v, rounded_conversion amount original_rate rt = Return v).
    { intros c rt Hin. apply Hconv. right. exact Hin. }
    destruct (dict_get String.eqb currency_rates t) as [rt|] eqn:Ht.
    + destruct (Hconv t rt (or_introl eq_refl) Ht) as [v Hv]. rewrite Hv.
      destruct (IH Hrest (dict_set String.eqb output t v) w)
        as [output' [w' [Hrun [Hin Hout]]]].
      exists output', w'. split; [exact Hrun|]. split.
      * intros c rt' Hc Hrt'.
        destruct (in_dec string_dec c rest) as [Hcr | Hcr];
          [apply Hin; assumption|].
        destruct Hc as [<- | Hc]; [|contradiction].
        rewrite Ht in Hrt'. injection Hrt' as <-.
        exists v. split; [exact Hv|].
        rewrite (Hout t (or_introl Hcr)).
        apply dict_get_set_same, string_eqb_spec.
      * intros c Hc. rewrite Hout.
        -- apply dict_get_set_other; [apply string_eqb_spec|].
           intros ->. destruct Hc as [Hc | Hc]; [|congruence].
           apply Hc. left. reflexivity.
        -- destruct Hc as [Hc | Hc]; [left | right; exact Hc].
           intros Hin'. apply Hc. right. exact Hin'.
    + destruct (IH Hrest output
                  {| stdout := stdout w ++ [MsgSkipping t];
                     archive_file := archive_file w;
                     requests := requests w |})
        as [output' [w' [Hrun [Hin Hout]]]].
      exists output', w'. split; [exact Hrun|]. split.
      * intros c rt' Hc Hrt'. destruct Hc as [<- | Hc]; [congruence|].
        apply Hin; assumption.
      * intros c Hc. apply Hout.
        destruct Hc as [Hc | Hc]; [left | right; exact Hc].
        intros Hin'. apply Hc. right. exact Hin'.
Qed.

(** When a conversion the loop makes raises, the loop raises. *)
Lemma convert_loop_raises (currency_rates : rates) (amount : float)
    (original_rate : pynum) (targets : list string) (err : exn) :
  (forall c rt, In c targets ->
     dict_get String.eqb currency_rates c = Some rt ->
     rounded_conversion amount original_rate rt = Raise err) ->
  (exists c, In c targets /\ dict_get String.eqb currency_rates c <> None) ->
  forall (output : list (string * float)) (w : world),
  exists w' : world,
    convert_loop currency_rates amount original_rate targets output w
    = (Raise err, w').
Proof.
  induction targets as [|t rest IH]; intros Hconv [c [Hin Hc]] output w.
  - destruct Hin.
  - rewrite convert_turn.
    destruct (dict_get String.eqb currency_rates t) as [rt|] eqn:Ht.
    + rewrite (Hconv t rt (or_introl eq_refl) Ht). eexists. reflexivity.
    + apply IH.
      * intros c' rt' Hin'. apply Hconv. right. exact Hin'.
      * exists c. split; [|exact Hc].
        destruct Hin as [<- | Hin]; [congruence | exact Hin].
Qed.

Lemma convert_currency_float (currency_rates : rates) (amount : float)
    (original_currency : option string) (targets : list string) (w : world) :
  fltb amount (S754_zero false) = false ->
  convert_currency currency_rates (PyFloat amount) original_currency targets w
  = match lookup currency_rates original_currency with
    | None => (Raise (KeyError original_currency), w)
    | Some original_rate =>
        match convert_loop currency_rates amount original_rate targets [] w with
        | (Return output, w') =>
            (Return {| input_amount := amount;
                       input_currency := original_currency;
                       output := output |}, w')
        | (Raise err, w') => (Raise err, w')
        end
    end.
Proof.
  intros H. unfold convert_currency. rewrite H.
  destruct (lookup currency_rates original_currency); reflexivity.
Qed.

(** The rounding of [py_round2] is the rounding to two decimals. *)
Lemma round_half_even_div_nearest (n d : Z) :
  0 <= n -> 0 < d -> nearest_even n d (round_half_even_div n d).
Proof.
  intros Hn Hd. unfold nearest_even, round_half_even_div.
  pose proof (Z.div_mod n d ltac:(lia)) as Hdiv.
  pose proof (Z.mod_pos_bound n d Hd) as Hmod.
  set (q := n / d) in *. set (r := n mod d) in *.
  assert (E0 : 2 * n - 2 * q * d = 2 * r) by lia.
  assert (E1 : 2 * n - 2 * (q + 1) * d = 2 * r - 2 * d) by lia.
  destruct (2 * r ?= d) eqn:Hcmp.
  - apply Z.compare_eq in Hcmp.
    destruct (Z.even q) eqn:Heven.
    + rewrite E0. split; [lia | intros _; exact Heven].
    + rewrite E1. split; [lia|]. intros _.
      rewrite Z.even_add, Heven. reflexivity.
  - rewrite Z.compare_lt_iff in Hcmp. rewrite E0. split; lia.
  - rewrite Z.compare_gt_iff in Hcmp. rewrite E1. split; lia.
Qed.

Lemma nearest_even_unique (n d q q' : Z) :
  0 < d -> nearest_even n d q -> nearest_even n d q' -> q = q'.
Proof.
  intros Hd [Hq Hq_tie] [Hq' Hq'_tie].
  assert (Hnear : q' = q \/ q' = q + 1 \/ q' = q - 1).
  { assert (Hdiff : Z.abs (2 * (q' - q) * d) <= 2 * d) by lia.
    assert (Z.abs (q' - q) <= 1).
    { rewrite Z.abs_mul in Hdiff. rewrite (Z.abs_eq d) in Hdiff by lia.
      rewrite Z.abs_mul in Hdiff. cbn [Z.abs] in Hdiff. nia. }
    lia. }
  destruct Hnear as [-> | [-> | ->]]; [reflexivity | exfalso | exfalso].
  - assert (E : 2 * n - 2 * (q + 1) * d = 2 * n - 2 * q * d - 2 * d) by lia.
    rewrite E in Hq', Hq'_tie.
    assert (Ht : Z.abs (2 * n - 2 * q * d) = d) by lia.
    assert (Ht' : Z.abs (2 * n - 2 * q * d - 2 * d) = d) by lia.
    specialize (Hq_tie Ht). specialize (Hq'_tie Ht').
    rewrite Z.even_add, Hq_tie in Hq'_tie. discriminate.
  - assert (E : 2 * n - 2 * (q - 1) * d = 2 * n - 2 * q * d + 2 * d) by lia.
    rewrite E in Hq', Hq'_tie.
    assert (Ht : Z.abs (2 * n - 2 * q * d) = d) by lia.
    assert (Ht' : Z.abs (2 * n - 2 * q * d + 2 * d) = d) by lia.
    specialize (Hq_tie Ht). specialize (Hq'_tie Ht').
    rewrite Z.even_sub, Hq_tie in Hq'_tie. discriminate.
Qed.

Lemma py_round2_rounds (x : float) : rounded_to_cents x (py_round2 x).
Proof.
  destruct x as [s | s | | s m e]; try reflexivity.
  unfold rounded_to_cents, py_round2.
  destruct (0 <=? e) eqn:He.
  - apply Z.leb_le in He. exists (Z.pos m * 2 ^ e * 100).
    rewrite (Z.max_r 0 e) by lia. rewrite (Z.max_l 0 (- e)) by lia.
    split; [|reflexivity].
    unfold nearest_even. change (2 ^ 0) with 1.
    replace (2 * (100 * Z.pos m * 2 ^ e) - 2 * (Z.pos m * 2 ^ e * 100) * 1)
      with 0 by lia.
    split; [cbn; lia | cbn; discriminate].
  - apply Z.leb_gt in He.
    exists (round_half_even_div (Z.pos m * 100) (2 ^ (- e))).
    rewrite (Z.max_l 0 e) by lia. rewrite (Z.max_r 0 (- e)) by lia.
    split; [|reflexivity].
    change (2 ^ 0) with 1.
    replace (100 * Z.pos m * 1) with (Z.pos m * 100) by lia.
    apply round_half_even_div_nearest; [lia|].
    apply Z.pow_pos_nonneg; lia.
Qed.

(** Only one [float] is an amount rounded to two decimals. *)
Lemma rounded_to_cents_unique (x v v' : float) :
  rounded_to_cents x v -> rounded_to_cents x v' -> v = v'.
Proof.
  destruct x as [s | s | | s m e]; cbn [rounded_to_cents]; try congruence.
  intros [q [Hq ->]] [q' [Hq' ->]].
  assert (Hpos : 0 < 2 ^ Z.max 0 (- e)) by (apply Z.pow_pos_nonneg; lia).
  rewrite (nearest_even_unique _ _ q q' Hpos Hq Hq'). reflexivity.
Qed.

(** The unit test [test_convert_currency_valid]. *)
Example test_convert_currency_valid (w : world) :
  convert_currency test_rates (PyFloat (float_of_Z 300)) (Some "USD")
    ["CZK"; "CAD"] w
  = (Return {| input_amount := float_of_Z 300;
               input_currency := Some "USD";
               output := [("CZK", float_of_Z 5000); ("CAD", float_of_Z 260)] |},
     w).
Proof.
  rewrite convert_currency_float by reflexivity.
  cbn [lookup]. unfold test_rates at 1. cbn [dict_get String.eqb Ascii.eqb Bool.eqb].
  rewrite !convert_turn.
  vm_compute. reflexivity.
Qed.

(** Amounts that have to be rounded: 100.0 USD are 86.666... CAD, printed
    as 86.67; 1.0 EUR at 0.125 is a tie, rounded to the even 0.12. *)
Example test_convert_currency_rounds (w : world) :
  convert_currency test_rates (PyFloat (float_of_Z 100)) (Some "USD") ["CAD"] w
  = (Return {| input_amount := float_of_Z 100;
               input_currency := Some "USD";
               output := [("CAD", float_literal 8667 100)] |}, w)
  /\ convert_currency tie_rates (PyFloat (float_of_Z 1)) (Some "EUR") ["XAU"] w
     = (Return {| input_amount := float_of_Z 1;
                  input_currency := Some "EUR";
                  output := [("XAU", float_literal 12 100)] |}, w).
Proof.
  split; rewrite convert_currency_float by reflexivity; cbn [lookup].
  - unfold test_rates at 1. cbn [dict_get String.eqb Ascii.eqb Bool.eqb].
    rewrite !convert_turn. vm_compute. reflexivity.
  - unfold tie_rates at 1. cbn [dict_get String.eqb Ascii.eqb Bool.eqb].
    rewrite !convert_turn. vm_compute. reflexivity.
Qed.

(** C3.  For an amount that is a [float] and is not below zero, a source
    that is a key of the rates, rates that are positive numbers, and any
    list of targets, [convert_currency] returns; its output maps every
    target that is a key of the rates to
    [round(amount / rate[source] * rate[target], 2)] and has no entry for
    any other code, the targets the rates do not hold being passed over.
    The value stored is the product rounded to two decimals: the whole
    number of hundredths nearest to the exact value of the product, ties to
    the even one, divided by 100; no other [float] is.  With the rates of
    the unit test, 300.0 USD to CZK and CAD gives
    [{CZK: 5000.0, CAD: 260.0}], and 100.0 USD gives 86.67 CAD. *)
Theorem convert_maps_known_targets (currency_rates : rates) (amount : float)
    (source : string) (source_rate : pynum) (targets : list string) (w : world) :
  fltb amount (S754_zero false) = false ->
  dict_get String.eqb currency_rates source = Some source_rate ->
  (forall c rt, dict_get String.eqb currency_rates c = Some rt ->
                positive_rate rt = true) ->
  (exists (out : list (string * float)) (w' : world),
      convert_currency currency_rates (PyFloat amount) (Some source) targets w
      = (Return {| input_amount := amount;
                   input_currency := Some source;
                   output := out |}, w')
      /\ (forall c rt, In c targets ->
            dict_get String.eqb currency_rates c = Some rt ->
            exists quotient product v : float,
              py_truediv amount source_rate = Return quotient
              /\ py_mul quotient rt = Return product
              /\ rounded_to_cents product v
              /\ (forall v', rounded_to_cents product v' -> v' = v)
              /\ rounded_conversion amount source_rate rt = Return v
              /\ dict_get String.eqb out c = Some v)
      /\ (forall c, ~ In c targets \/ dict_get String.eqb currency_rates c = None ->
            dict_get String.eqb out c = None))
  /\ convert_currency test_rates (PyFloat (float_of_Z 300)) (Some "USD")
       ["CZK"; "CAD"] w
     = (Return {| input_amount := float_of_Z 300;
                  input_currency := Some "USD";
                  output := [("CZK", float_of_Z 5000); ("CAD", float_of_Z 260)] |},
        w)
  /\ convert_currency test_rates (PyFloat (float_of_Z 100)) (Some "USD") ["CAD"] w
     = (Return {| input_amount := float_of_Z 100;
                  input_currency := Some "USD";
                  output := [("CAD", float_literal 8667 100)] |}, w)
  /\ convert_currency tie_rates (PyFloat (float_of_Z 1)) (Some "EUR") ["XAU"] w
     = (Return {| input_amount := float_of_Z 1;
                  input_currency := Some "EUR";
                  output := [("XAU", float_literal 12 100)] |}, w).
Proof.
  intros Hamount Hsource Hrates.
  split; [|split; [apply test_convert_currency_valid
                  | apply test_convert_currency_rounds]].
  rewrite convert_currency_float by exact Hamount.
  cbn [lookup]. rewrite Hsource.
  destruct (positive_rate_finite _ (Hrates _ _ Hsource)) as [Hfin Hnz].
  destruct (convert_loop_returns currency_rates amount source_rate targets)
    with (output := @nil (string * float)) (w := w)
    as [out [w' [Hrun [Hin Hout]]]].
  { intros c rt _ Hrt.
    destruct (positive_rate_finite _ (Hrates _ _ Hrt)) as [Hfin' _].
    apply (rounded_conversion_cases amount source_rate rt Hfin Hfin'), Hnz. }
  exists out, w'. rewrite Hrun.
  split; [reflexivity|]. split.
  - intros c rt Hc Hrt. destruct (Hin c rt Hc Hrt) as [v [Hconv Hget]].
    pose proof Hconv as Hsteps. unfold rounded_conversion in Hsteps.
    destruct (py_truediv amount source_rate) as [quotient|] eqn:Hdiv;
      [|discriminate Hsteps].
    cbn [obind] in Hsteps.
    destruct (py_mul quotient rt) as [product|] eqn:Hmul; [|discriminate Hsteps].
    injection Hsteps as <-.
    exists quotient, product, (py_round2 product).
    split; [reflexivity|]. split; [exact Hmul|].
    split; [apply py_round2_rounds|].
    split; [|split; [exact Hconv | exact Hget]].
    intros v' Hv'. apply (rounded_to_cents_unique product); [exact Hv'|].
    apply py_round2_rounds.
  - intros c Hc. rewrite (Hout c Hc). reflexivity.
Qed.

Lemma test_rates_positive (c : string) (rt : pynum) :
  dict_get String.eqb test_rates c = Some rt -> positive_rate rt = true.
Proof.
  unfold test_rates. cbn [dict_get].
  repeat match goal with
         | |- context [if ?b then _ else _] => destruct b
         end; intros [= <-]; reflexivity.
Qed.

Lemma convert_maps_known_targets_witness :
  exists (out : list (string * float)) (w' : world),
    convert_currency test_rates (PyFloat (float_of_Z 100)) (Some "USD")
      ["CAD"; "XXX"] empty_world
    = (Return {| input_amount := float_of_Z 100;
                 input_currency := Some "USD";
                 output := out |}, w')
    /\ dict_get String.eqb out "CAD" = Some (float_literal 8667 100)
    /\ dict_get String.eqb out "XXX" = None.
Proof.
  destruct (proj1 (convert_maps_known_targets test_rates (float_of_Z 100) "USD"
                     (PyFloat (float_literal 15 10)) ["CAD"; "XXX"] empty_world
                     eq_refl eq_refl test_rates_positive))
    as [out [w' [Hrun [Hin Hout]]]].
  exists out, w'. split; [exact Hrun|]. split.
  - destruct (Hin "CAD" (PyFloat (float_literal 13 10)) (or_introl eq_refl) eq_refl)
      as [quotient [product [v [_ [_ [_ [_ [Hconv Hget]]]]]]]].
    vm_compute in Hconv. injection Hconv as <-.
    rewrite Hget. vm_compute. reflexivity.
  - apply Hout. right. reflexivity.
Defined.

(** C9 fails as an equivalence: with a source whose rate is zero and no
    target among the keys of the rates, nothing is divided and the call
    returns. *)
Lemma zero_rate_completes :
  let currency_rates := [("USD", PyFloat (S754_zero false))] in
  zero_rate (PyFloat (S754_zero false)) = true
  /\ convert_currency currency_rates (PyFloat (float_of_Z 300)) (Some "USD")
       ["GBP"] empty_world
     = (Return {| input_amount := float_of_Z 300;
                  input_currency := Some "USD";
                  output := [] |},
        {| stdout := [MsgSkipping "GBP"];
           archive_file := Missing;
           requests := [] |})
  /\ ~ (forall (rates0 : rates) (amount : float) (source : option string)
               (targets : list string) (w : world),
          fltb amount (S754_zero false) = false ->
          ((exists res w',
              convert_currency rates0 (PyFloat amount) source targets w
              = (Return res, w'))
           <-> exists r0, lookup rates0 source = Some r0 /\ zero_rate r0 = false)).
Proof.
  split; [reflexivity|]. split; [reflexivity|].
  intros H.
  destruct (proj1 (H [("USD", PyFloat (S754_zero false))] (float_of_Z 300)
                     (Some "USD") ["GBP"] empty_world eq_refl))
    as [r0 [Hr0 Hz]].
  - eexists. eexists. reflexivity.
  - cbn in Hr0. injection Hr0 as <-. discriminate Hz.
Qed.

(** C9, amended.  [convert_currency] looks the source up and divides by its
    rate without a guard, and it divides once for each target that is a key
    of the rates.  So, for a [float] amount that is not below zero and rates
    a [float] can hold, the call returns if and only if the source is a key
    of the rates and either its rate is not zero or no target is a key of
    the rates.  A source that is not a key (or is [None]) raises [KeyError],
    not the [ValueError] of a bad amount; a zero rate with a target among
    the keys raises [ZeroDivisionError]. *)
Theorem convert_completes_iff (currency_rates : rates) (amount : float)
    (source : option string) (targets : list string) (w : world) :
  fltb amount (S754_zero false) = false ->
  (forall c rt, dict_get String.eqb currency_rates c = Some rt ->
                finite_rate rt = true) ->
  ((exists res w',
      convert_currency currency_rates (PyFloat amount) source targets w
      = (Return res, w'))
   <-> exists r0,
         lookup currency_rates source = Some r0
         /\ (zero_rate r0 = false
             \/ forall c, In c targets ->
                  dict_get String.eqb currency_rates c = None))
  /\ (lookup currency_rates source = None ->
      convert_currency currency_rates (PyFloat amount) source targets w
      = (Raise (KeyError source), w))
  /\ (forall r0,
        lookup currency_rates source = Some r0 ->
        zero_rate r0 = true ->
        (exists c, In c targets /\ dict_get String.eqb currency_rates c <> None) ->
        exists w',
          convert_currency currency_rates (PyFloat amount) source targets w
          = (Raise ZeroDivisionError, w')).
Proof.
  intros Hamount Hrates.
  rewrite convert_currency_float by exact Hamount.
  assert (Hzero : forall r0,
            lookup currency_rates source = Some r0 ->
            zero_rate r0 = true ->
            (exists c, In c targets /\ dict_get String.eqb currency_rates c <> None) ->
            exists w',
              convert_loop currency_rates amount r0 targets [] w
              = (Raise ZeroDivisionError, w')).
  { intros r0 Hr0 Hz Hex.
    assert (Hfin : finite_rate r0 = true).
    { destruct source as [s|]; [apply (Hrates s), Hr0 | discriminate Hr0]. }
    apply convert_loop_raises; [|exact Hex].
    intros c rt _ Hrt.
    apply (rounded_conversion_cases amount r0 rt Hfin (Hrates _ _ Hrt)), Hz. }
  destruct (lookup currency_rates source) as [r0|] eqn:Hsource.
  - split; [|split; [discriminate|]].
    + split.
      * intros [res [w' Hrun]]. exists r0. split; [reflexivity|].
        destruct (zero_rate r0) eqn:Hz; [right | left; reflexivity].
        intros c Hin.
        destruct (dict_get String.eqb currency_rates c) as [rt|] eqn:Hc;
          [exfalso | reflexivity].
        destruct (Hzero r0 eq_refl Hz) as [w1 Hw1].
        { exists c. split; [exact Hin | congruence]. }
        rewrite Hw1 in Hrun. discriminate Hrun.
      * intros [r1 [[= <-] Hcases]].
        assert (Hfin : finite_rate r0 = true).
        { destruct source as [s|]; [apply (Hrates s), Hsource | discriminate Hsource]. }
        destruct (convert_loop_returns currency_rates amount r0 targets)
          with (output := @nil (string * float)) (w := w)
          as [out [w' [Hrun _]]].
        { intros c rt Hin Hrt. destruct Hcases as [Hz | Hnone].
          - apply (rounded_conversion_cases amount r0 rt Hfin (Hrates _ _ Hrt)), Hz.
          - rewrite (Hnone c Hin) in Hrt. discriminate Hrt. }
        rewrite Hrun. eexists. eexists. reflexivity.
    + intros r1 [= <-] Hz Hex.
      destruct (Hzero r0 eq_refl Hz Hex) as [w' Hw']. rewrite Hw'.
      exists w'. reflexivity.
  - split; [|split; [reflexivity | discriminate]].
    split.
    + intros [res [w' Hrun]]. discriminate Hrun.
    + intros [r0 [Hr0 _]]. discriminate Hr0.
Qed.

Lemma test_rates_finite (c : string) (rt : pynum) :
  dict_get String.eqb test_rates c = Some rt -> finite_rate rt = true.
Proof.
  intros H. apply positive_rate_finite, (test_rates_positive c), H.
Qed.

Lemma convert_completes_iff_witness :
  (exists res w',
     convert_currency test_rates (PyFloat (float_of_Z 300)) (Some "USD")
       ["CZK"; "CAD"] empty_world = (Return res, w'))
  /\ convert_currency test_rates (PyFloat (float_of_Z 300)) (Some "XXX")
       ["CZK"; "CAD"] empty_world = (Raise (KeyError (Some "XXX")), empty_world).
Proof.
  split.
  - apply (proj1 (convert_completes_iff test_rates (float_of_Z 300) (Some "USD")
                    ["CZK"; "CAD"] empty_world eq_refl test_rates_finite)).
    exists (PyFloat (float_literal 15 10)). split; [reflexivity|].
    left. reflexivity.
  - exact (proj1 (proj2 (convert_completes_iff test_rates (float_of_Z 300)
                           (Some "XXX") ["CZK"; "CAD"] empty_world
                           eq_refl test_rates_finite)) eq_refl).
Defined.

(* ================================================================== *)
(** ** The unit tests of the target currencies *)

(** [test_get_target_currencies_valid] and
    [test_get_target_currencies_invalid]. *)
Example test_get_target_currencies (w : world) :
  get_target_currencies test_env test_rates (Some "USD") (Some "CZK") w
  = (Return ["CZK"], w)
  /\ get_target_currencies test_env test_rates (Some "USD") (Some pound) w
     = (Return ["EGP"; "FKP"; "GIP"; "GGP"; "IMP"; "JEP"; "LBP"; "SHP"; "SYP";
                "GBP"], w)
  /\ get_target_currencies test_env test_rates (Some "USD") (Some "XXX") w
     = (Return ["USD"; "CZK"; "CAD"], w)
  /\ get_target_currencies test_env test_rates (Some "USD") None w
     = (Return ["USD"; "CZK"; "CAD"], w)
  /\ get_target_currencies test_env test_rates (Some "XXX") (Some "CZK") w
     = (Raise (ValueError (UnsupportedCurrency (Some "XXX"))), w)
  /\ get_target_currencies test_env test_rates None (Some "CZK") w
     = (Raise (ValueError (UnsupportedCurrency None)), w).
Proof. repeat split. Qed.

Lemma target_precedence_witness :
  String.length "USD" = 3%nat
  /\ get_target_currencies test_env test_rates (Some "USD") (Some pound)
       empty_world
     = (Return ["EGP"; "FKP"; "GIP"; "GGP"; "IMP"; "JEP"; "LBP"; "SHP"; "SYP";
                "GBP"], empty_world)
  /\ get_target_currencies test_env test_rates (Some "USD") (Some "CZK")
       empty_world
     = (Return ["CZK"], empty_world)
  /\ get_target_currencies test_env test_rates (Some "USD") None empty_world
     = (Return ["USD"; "CZK"; "CAD"], empty_world).
Proof.
  split; [reflexivity|]. split; [|split].
  - apply (proj1 (target_precedence test_env test_rates "USD" (Some pound)
                    empty_world test_symbols eq_refl eq_refl eq_refl));
      [reflexivity | discriminate].
  - apply (proj1 (proj2 (target_precedence test_env test_rates "USD" (Some "CZK")
                           empty_world test_symbols eq_refl eq_refl eq_refl))
             (or_introl eq_refl) "CZK" eq_refl eq_refl).
  - apply (proj2 (proj2 (target_precedence test_env test_rates "USD" None
                           empty_world test_symbols eq_refl eq_refl eq_refl))
             (or_introl eq_refl) eq_refl).
Defined.

Lemma unknown_source_rejected_witness :
  (exists v : value_error,
     get_target_currencies test_env test_rates (Some "XXX") (Some "CZK")
       empty_world = (Raise (ValueError v), empty_world))
  /\ get_target_currencies test_env test_rates (Some "US") (Some "CZK")
       empty_world = (Raise (ValueError SymbolAsInput), empty_world).
Proof.
  split.
  - exact (proj1 (unknown_source_rejected test_env test_rates (Some "XXX")
                    (Some "CZK") empty_world) eq_refl).
  - apply (proj2 (unknown_source_rejected test_env test_rates (Some "US")
                    (Some "CZK") empty_world) "US" eq_refl);
      [discriminate | discriminate].
Defined.

Lemma date_setter_never_raises_witness :
  exists w' : world,
    date_setter test_env (Some "31/04/2016") empty_world = (Return "latest", w').
Proof.
  destruct (date_setter_never_raises test_env (Some "31/04/2016") empty_world)
    as [d [w' [Hrun [_ [_ [_ Hbad]]]]]].
  destruct (Hbad "31/04/2016" eq_refl eq_refl) as [-> _].
  exists w'. exact Hrun.
Defined.

Lemma translate_symbol_failures_witness :
  translate_symbol test_env (Some "?") empty_world = (Return [], empty_world)
  /\ translate_symbol test_env (Some pound) empty_world
     = (Return ["EGP"; "FKP"; "GIP"; "GGP"; "IMP"; "JEP"; "LBP"; "SHP"; "SYP";
                "GBP"], empty_world).
Proof.
  pose proof (proj1 (translate_symbol_failures test_env (Some "?") empty_world))
    as Hmiss.
  pose proof (proj1 (translate_symbol_failures test_env (Some pound) empty_world))
    as Hhit.
  cbn [currency_table test_env] in Hmiss, Hhit.
  split.
  - exact (proj1 Hmiss eq_refl).
  - exact (proj2 Hhit _ eq_refl).
Defined.

(* ================================================================== *)
(** ** The dates the setter accepts *)

Lemma days_in_month_bounds (y m : Z) : 28 <= days_in_month y m <= 31.
Proof.
  unfold days_in_month.
  destruct (m =? 2); [destruct (is_leap y); lia|].
  destruct (z_in m [4; 6; 9; 11]); lia.
Qed.

Lemma days_in_february (y : Z) : days_in_month y 2 <= 29.
Proof. unfold days_in_month. cbn. destruct (is_leap y); lia. Qed.

Lemma thirty_one_days (y m : Z) :
  1 <= m <= 12 -> 31 <= days_in_month y m ->
  z_in m [1; 3; 5; 7; 8; 10; 12] = true.
Proof.
  intros Hm H.
  assert (Hcases : m = 1 \/ m = 2 \/ m = 3 \/ m = 4 \/ m = 5 \/ m = 6
                   \/ m = 7 \/ m = 8 \/ m = 9 \/ m = 10 \/ m = 11 \/ m = 12)
    by lia.
  repeat destruct Hcases as [-> | Hcases]; try subst m; try reflexivity;
    exfalso; revert H; unfold days_in_month; cbn;
    try destruct (is_leap y); lia.
Qed.

(** The checks of the setter pass on a date of the calendar that is not a
    29th of February. *)
Lemma check_date_passes (cy : Z) (raw d m y : string) (day month year : Z) :
  strlen raw = 10 ->
  split "/" raw = [d; m; y] ->
  py_int d = Return day -> py_int m = Return month -> py_int y = Return year ->
  2000 <= year <= cy -> 1 <= month <= 12 ->
  1 <= day <= days_in_month year month ->
  ~ (month = 2 /\ day = 29) ->
  check_date cy raw = Return {| pd_day := d; pd_month := m; pd_year := y |}.
Proof.
  intros Hlen Hsplit Hd Hm Hy Hyear Hmonth Hday Hfeb.
  unfold check_date. rewrite Hlen, Hsplit. cbn [Z.eqb Pos.eqb negb make_parsed_date obind pd_year pd_month pd_day].
  rewrite Hy, Hm, Hd. cbn [obind].
  replace ((2000 <=? year) && (year <=? cy)) with true
    by (symmetry; apply andb_true_iff; split; apply Z.leb_le; lia).
  replace ((1 <=? month) && (month <=? 12)) with true
    by (symmetry; apply andb_true_iff; split; apply Z.leb_le; lia).
  cbn [negb].
  pose proof (days_in_month_bounds year month) as Hb.
  replace ((month =? 2) && (28 <? day)) with false.
  2:{ symmetry. apply andb_false_iff.
      destruct (Z.eq_dec month 2) as [-> | Hne];
        [right | left; apply Z.eqb_neq, Hne].
      apply Z.ltb_ge. pose proof (days_in_february year). lia. }
  cbn [obind].
  replace ((1 <=? day) && (day <=? 31)) with true
    by (symmetry; apply andb_true_iff; split; apply Z.leb_le; lia).
  cbn [negb].
  replace ((day =? 31) && negb (z_in month [1; 3; 5; 7; 8; 10; 12])) with false;
    [reflexivity|].
  symmetry. apply andb_false_iff.
  destruct (Z.eq_dec day 31) as [-> | Hne]; [right | left; apply Z.eqb_neq, Hne].
  rewrite (thirty_one_days year month) by lia. reflexivity.
Qed.

Lemma well_formed_date_fields (cy : Z) (raw d m y : string) (day month year : Z) :
  split "/" raw = [d; m; y] ->
  py_int d = Return day -> py_int m = Return month -> py_int y = Return year ->
  well_formed_date cy raw = true ->
  strlen raw = 10 /\ 2000 <= year <= cy /\ 1 <= month <= 12
  /\ 1 <= day <= days_in_month year month.
Proof.
  intros Hsplit Hd Hm Hy. unfold well_formed_date.
  rewrite Hsplit, Hd, Hm, Hy. intros H.
  repeat (apply andb_true_iff in H; destruct H as [H ?]).
  repeat match goal with
         | H : (_ <=? _) = true |- _ => apply Z.leb_le in H
         | H : (_ =? _) = true |- _ => apply Z.eqb_eq in H
         end.
  lia.
Qed.

(** X1.  A well-formed date that is not a 29th of February is accepted: the
    setter assigns the three fields as they were typed, year first, joined
    by ["-"], and prints only the choice. *)
Theorem well_formed_date_accepted (e : env) (raw d m y : string)
    (day month year : Z) (w : world) :
  split "/" raw = [d; m; y] ->
  py_int d = Return day -> py_int m = Return month -> py_int y = Return year ->
  well_formed_date (dt_year (now e)) raw = true ->
  ~ (month = 2 /\ day = 29) ->
  date_setter e (Some raw) w
  = (Return (join "-" [y; m; d]),
     printed w [MsgUsingRates (join "-" [y; m; d])]).
Proof.
  intros Hsplit Hd Hm Hy Hwf Hfeb.
  destruct (well_formed_date_fields _ _ _ _ _ _ _ _ Hsplit Hd Hm Hy Hwf)
    as [Hlen [Hyear [Hmonth Hday]]].
  unfold date_setter.
  rewrite (check_date_passes _ _ _ _ _ _ _ _ Hlen Hsplit Hd Hm Hy
             Hyear Hmonth Hday Hfeb).
  reflexivity.
Qed.

Lemma well_formed_date_accepted_witness :
  date_setter test_env (Some "28/02/2016") empty_world
  = (Return "2016-02-28", printed empty_world [MsgUsingRates "2016-02-28"]).
Proof.
  apply (well_formed_date_accepted test_env "28/02/2016" "28" "02" "2016"
           28 2 2016 empty_world eq_refl eq_refl eq_refl eq_refl eq_refl).
  intros [_ H]. discriminate H.
Defined.

(* ================================================================== *)
(** ** From the setter to [strptime] *)

Lemma digit_not_slash (c : ascii) : is_digit c = true -> Ascii.eqb c "/" = false.
Proof.
  destruct c as [[] [] [] [] [] [] [] []]; intros H;
    solve [reflexivity | discriminate H].
Qed.

Lemma digit_val_range (c : ascii) :
  is_digit c = true -> exists v, digit_val c = Some v /\ 0 <= v <= 9.
Proof.
  destruct c as [[] [] [] [] [] [] [] []]; intros H; try discriminate H;
    eexists; (split; [reflexivity | cbn; lia]).
Qed.

Lemma split_digits_date (d1 d2 m1 m2 y1 y2 y3 y4 : ascii) :
  forallb is_digit [d1; d2; m1; m2; y1; y2; y3; y4] = true ->
  split "/" (digits_date d1 d2 m1 m2 y1 y2 y3 y4)
  = [String d1 (String d2 ""); String m1 (String m2 "");
     String y1 (String y2 (String y3 (String y4 "")))].
Proof.
  cbn [forallb]. intros H.
  repeat (apply andb_true_iff in H; destruct H as [?H H]).
  unfold digits_date. cbn [split].
  repeat first [rewrite digit_not_slash by assumption | progress cbn].
  reflexivity.
Qed.

Lemma py_int_two_digits (a b : ascii) (va vb : Z) :
  digit_val a = Some va -> digit_val b = Some vb ->
  py_int (String a (String b "")) = Return (10 * va + vb)
  /\ two_digits a b = Some (10 * va + vb).
Proof.
  intros Ha Hb. split; [|unfold two_digits; rewrite Ha, Hb; reflexivity].
  rewrite py_int_digits;
    [ | cbn [all_digits]; unfold is_digit; rewrite Ha, Hb; reflexivity
      | discriminate ].
  rewrite (int_digits_step a _ 0 va Ha), (int_digits_step b _ _ vb Hb).
  cbn [int_digits]. f_equal; lia.
Qed.

Lemma py_int_four_digits (a b c d : ascii) (va vb vc vd : Z) :
  digit_val a = Some va -> digit_val b = Some vb ->
  digit_val c = Some vc -> digit_val d = Some vd ->
  py_int (String a (String b (String c (String d ""))))
  = Return (100 * (10 * va + vb) + (10 * vc + vd)).
Proof.
  intros Ha Hb Hc Hd.
  rewrite py_int_digits;
    [ | cbn [all_digits]; unfold is_digit; rewrite Ha, Hb, Hc, Hd; reflexivity
      | discriminate ].
  rewrite (int_digits_step a _ 0 va Ha), (int_digits_step b _ _ vb Hb),
    (int_digits_step c _ _ vc Hc), (int_digits_step d _ _ vd Hd).
  cbn [int_digits]. f_equal; lia.
Qed.

(** [strptime] on year-month-day written with four, two and two digits. *)
Lemma strptime_digits (d1 d2 m1 m2 y1 y2 y3 y4 : ascii) (day month hi lo : Z) :
  two_digits y1 y2 = Some hi -> two_digits y3 y4 = Some lo ->
  two_digits m1 m2 = Some month -> two_digits d1 d2 = Some day ->
  1 <= 100 * hi + lo <= 9999 -> 1 <= month <= 12 ->
  1 <= day <= days_in_month (100 * hi + lo) month ->
  strptime_ymd
    (join "-" [String y1 (String y2 (String y3 (String y4 "")));
               String m1 (String m2 ""); String d1 (String d2 "")])
  = Return {| dt_year := 100 * hi + lo; dt_month := month; dt_day := day |}.
Proof.
  intros Hhi Hlo Hm Hd Hyear Hmonth Hday.
  pose proof (days_in_month_bounds (100 * hi + lo) month) as Hb.
  cbn [join append]. unfold strptime_ymd. rewrite Hhi, Hlo.
  unfold match_month. rewrite Hm.
  replace (((10 <=? month) && (month <=? 12)) || ((1 <=? month) && (month <=? 9)))
    with true.
  2:{ symmetry. apply orb_true_iff.
      destruct (Z_le_dec 10 month); [left | right];
        apply andb_true_iff; split; apply Z.leb_le; lia. }
  cbn [app first_month_day]. unfold match_day. rewrite Hd.
  replace ((1 <=? day) && (day <=? 31)) with true
    by (symmetry; apply andb_true_iff; split; apply Z.leb_le; lia).
  cbn [app]. unfold make_date.
  replace ((1 <=? 100 * hi + lo) && (100 * hi + lo <=? 9999) && (1 <=? month)
           && (month <=? 12) && (1 <=? day)
           && (day <=? days_in_month (100 * hi + lo) month)) with true;
    [reflexivity|].
  symmetry. repeat (apply andb_true_iff; split); apply Z.leb_le; lia.
Qed.

(** X2.  A date typed with digits only, two for the day, two for the month
    and four for the year, that the setter does not replace by ["latest"],
    is read back by [get_rates] as that very day: the text the setter
    assigned parses under ["%Y-%m-%d"] to the year, month and day that
    [int] read from the three fields. *)
Theorem accepted_date_is_parsed (e : env) (d1 d2 m1 m2 y1 y2 y3 y4 : ascii)
    (s : string) (w : world) :
  forallb is_digit [d1; d2; m1; m2; y1; y2; y3; y4] = true ->
  fst (date_setter e (Some (digits_date d1 d2 m1 m2 y1 y2 y3 y4)) w) = Return s ->
  s <> "latest" ->
  exists day month year : Z,
    py_int (String d1 (String d2 "")) = Return day
    /\ py_int (String m1 (String m2 "")) = Return month
    /\ py_int (String y1 (String y2 (String y3 (String y4 "")))) = Return year
    /\ s = join "-" [String y1 (String y2 (String y3 (String y4 "")));
                     String m1 (String m2 ""); String d1 (String d2 "")]
    /\ lookup_date e s
       = Return {| dt_year := year; dt_month := month; dt_day := day |}.
Proof.
  intros Hdigits Hset Hs.
  pose proof (split_digits_date _ _ _ _ _ _ _ _ Hdigits) as Hsplit.
  cbn [forallb] in Hdigits.
  repeat (apply andb_true_iff in Hdigits; destruct Hdigits as [?H Hdigits]).
  repeat match goal with
         | H : is_digit _ = true |- _ =>
             apply digit_val_range in H; destruct H as [? [? ?]]
         end.
  match goal with
  | Hd1 : digit_val d1 = Some ?vd1, Hd2 : digit_val d2 = Some ?vd2,
    Hm1 : digit_val m1 = Some ?vm1, Hm2 : digit_val m2 = Some ?vm2,
    Hy1 : digit_val y1 = Some ?vy1, Hy2 : digit_val y2 = Some ?vy2,
    Hy3 : digit_val y3 = Some ?vy3, Hy4 : digit_val y4 = Some ?vy4 |- _ =>
      destruct (py_int_two_digits d1 d2 vd1 vd2 Hd1 Hd2) as [Hday Hday2];
      destruct (py_int_two_digits m1 m2 vm1 vm2 Hm1 Hm2) as [Hmonth Hmonth2];
      destruct (py_int_two_digits y1 y2 vy1 vy2 Hy1 Hy2) as [_ Hhi];
      destruct (py_int_two_digits y3 y4 vy3 vy4 Hy3 Hy4) as [_ Hlo];
      pose proof (py_int_four_digits y1 y2 y3 y4 vy1 vy2 vy3 vy4
                    Hy1 Hy2 Hy3 Hy4) as Hyear
  end.
  destruct (check_date (dt_year (now e)) (digits_date d1 d2 m1 m2 y1 y2 y3 y4))
    as [p|err] eqn:Hcheck.
  2:{ rewrite (date_setter_refused _ _ _ _ Hcheck) in Hset.
      injection Hset as <-. congruence. }
  pose proof (check_date_well_formed _ _ _ Hcheck) as Hwf.
  destruct (well_formed_date_fields _ _ _ _ _ _ _ _ Hsplit Hday Hmonth Hyear Hwf)
    as [Hlen [Hyr [Hmo Hdy]]].
  assert (Hp : p = {| pd_day := String d1 (String d2 "");
                      pd_month := String m1 (String m2 "");
                      pd_year := String y1 (String y2 (String y3 (String y4 ""))) |}).
  { revert Hcheck. unfold check_date, obind. rewrite Hsplit.
    cbn [make_parsed_date pd_year pd_month pd_day].
    repeat match goal with
           | |- context [if ?b then _ else _] => destruct b
           | |- context [match py_int ?x with _ => _ end] => destruct (py_int x)
           end; congruence. }
  unfold date_setter in Hset. rewrite Hcheck in Hset. cbn in Hset.
  injection Hset as <-. subst p. cbn [pd_year pd_month pd_day].
  do 3 eexists. split; [exact Hday|]. split; [exact Hmonth|].
  split; [exact Hyear|]. split; [reflexivity|].
  unfold lookup_date.
  destruct (String.eqb _ "latest") eqn:E;
    [apply String.eqb_eq in E; cbn [pd_year pd_month pd_day] in Hs; congruence|].
  apply strptime_digits; try assumption. lia.
Qed.

Lemma accepted_date_is_parsed_witness :
  exists day month year : Z,
    py_int "01" = Return day /\ py_int "04" = Return month
    /\ py_int "2017" = Return year
    /\ "2017-04-01" = join "-" ["2017"; "04"; "01"]
    /\ lookup_date test_env "2017-04-01"
       = Return {| dt_year := year; dt_month := month; dt_day := day |}.
Proof.
  apply (accepted_date_is_parsed test_env "0" "1" "0" "4" "2" "0" "1" "7"
           "2017-04-01" empty_world eq_refl eq_refl).
  discriminate.
Defined.

(* ================================================================== *)
(** ** More on [get_rates] *)



Lemma get_rates_lookup_date (e : env) (self_date : string) (date : ymd) (w : world) :
  lookup_date e self_date = Return date ->
  get_rates e self_date w
  = match search_archive date (archive_of w) (dict_keys (archive_of w)) with
    | Return (Some rates) => (Return rates, w)
    | Return None => download_and_archive e self_date w
    | Raise err => (Raise err, w)
    end.
Proof. apply get_rates_lookup. Qed.

(** X3.  For any date, when the archive holds entries of the day asked
    for, the first of them in the order of the file answers, later ones of
    the same day are never read; nothing is requested, printed or written. *)
Theorem first_entry_of_the_day_wins (e : env) (self_date : string) (date saved : ymd)
    (w : world) (pre post : list (string * rates)) (key : string) (r : rates) :
  lookup_date e self_date = Return date ->
  archive_of w = pre ++ (key, r) :: post ->
  Forall (other_day date) (dict_keys pre) ->
  key_date key = Return saved ->
  same_day date saved = true ->
  get_rates e self_date w = (Return r, w).
Proof.
  intros Hdate Harch Hpre Hkey Hday.
  rewrite (get_rates_lookup_date e self_date date w Hdate).
  rewrite Harch, (search_archive_hit _ saved) by assumption. reflexivity.
Qed.




Lemma has_foreign_letter_cons (c : ascii) (r : string) :
  has_foreign_letter (String c r) = foreign_letter c || has_foreign_letter r.
Proof.
  unfold has_foreign_letter. cbn [every].
  rewrite negb_andb, negb_involutive. reflexivity.
Qed.

Lemma foreign_letter_plain (c : ascii) :
  foreign_letter c = true ->
  is_space c = false /\ digit_val c = None /\ Ascii.eqb c "_" = false.
Proof.
  destruct c as [[] [] [] [] [] [] [] []]; vm_compute;
    intros H; first [discriminate H | repeat split].
Qed.

Lemma lstrip_foreign (s : string) :
  has_foreign_letter s = true -> has_foreign_letter (lstrip s) = true.
Proof.
  induction s as [|c r IH]; [intros H; exact H|].
  intros H. cbn [lstrip].
  destruct (is_space c) eqn:Hc; [|exact H].
  rewrite has_foreign_letter_cons in H.
  destruct (foreign_letter c) eqn:Hf.
  - apply foreign_letter_plain in Hf. destruct Hf as [Hf _]. congruence.
  - apply IH. exact H.
Qed.

Lemma rstrip_foreign (s : string) :
  has_foreign_letter s = true -> has_foreign_letter (rstrip s) = true.
Proof.
  induction s as [|c r IH]; [intros H; exact H|].
  intros H. cbn [rstrip]. rewrite has_foreign_letter_cons in H.
  destruct (foreign_letter c) eqn:Hf.
  - destruct (foreign_letter_plain c Hf) as [Hs _]. rewrite Hs.
    destruct (rstrip r); rewrite has_foreign_letter_cons, Hf; reflexivity.
  - specialize (IH H). destruct (rstrip r) as [|c' r']; [discriminate IH|].
    rewrite has_foreign_letter_cons, IH. apply orb_true_r.
Qed.

Lemma int_digits_foreign (s : string) (prev_us : bool) (acc : Z) :
  has_foreign_letter s = true -> int_digits s prev_us acc = None.
Proof.
  revert prev_us acc. induction s as [|c r IH]; intros prev_us acc H;
    [discriminate H|].
  rewrite has_foreign_letter_cons in H. cbn [int_digits].
  destruct (foreign_letter c) eqn:Hf.
  - destruct (foreign_letter_plain c Hf) as [_ [Hd Hu]]. rewrite Hu, Hd.
    reflexivity.
  - cbn [orb] in H. destruct (Ascii.eqb c "_").
    + destruct prev_us; [reflexivity|]. apply IH, H.
    + destruct (digit_val c); [|reflexivity]. apply IH, H.
Qed.

Lemma int_body_foreign (body : string) (neg : bool) :
  has_foreign_letter body = true ->
  match body with
  | EmptyString => Raise (ValueError BuiltinValueError)
  | String "_" _ => Raise (ValueError BuiltinValueError)
  | _ =>
      match int_digits body false 0 with
      | Some v => Return (if neg then - v else v)
      | None => Raise (ValueError BuiltinValueError)
      end
  end = Raise (ValueError BuiltinValueError).
Proof.
  intros H. rewrite (int_digits_foreign body false 0 H).
  destruct body as [|c r]; [reflexivity|].
  destruct c as [[] [] [] [] [] [] [] []]; reflexivity.
Qed.

(** [int] refuses a text that holds a letter. *)
Lemma py_int_foreign (s : string) :
  has_foreign_letter s = true -> py_int s = Raise (ValueError BuiltinValueError).
Proof.
  intros H. apply lstrip_foreign, rstrip_foreign in H. fold (strip s) in H.
  unfold py_int. destruct (strip s) as [|c r]; [discriminate H|].
  destruct c as [[] [] [] [] [] [] [] []];
    first [ exact (int_body_foreign _ false H)
          | exact (int_body_foreign r false H)
          | exact (int_body_foreign r true H) ].
Qed.

Lemma search_archive_raises (date : ymd) (data : list (string * rates))
    (pre rest : list string) (key : string) (err : exn) :
  Forall (other_day date) pre ->
  key_date key = Raise err ->
  search_archive date data (pre ++ key :: rest) = Raise err.
Proof.
  intros Hpre Hkey. rewrite (search_archive_skip _ _ _ _ Hpre).
  cbn [search_archive]. rewrite Hkey. reflexivity.
Qed.

(** X5.  The loop over the archive is outside the [try]: a key that holds a
    letter no numeral holds (a letter other than those of [e], [inf],
    [infinity] and [nan]), met before an entry of the day asked for, ends
    [get_rates] with the [ValueError] of [float(key)], uncaught; no rates
    are returned, nothing is downloaded and nothing is printed. *)
Theorem bad_archive_key_escapes (e : env) (self_date : string) (date : ymd)
    (w : world) (pre post : list (string * rates)) (key : string) (r : rates) :
  lookup_date e self_date = Return date ->
  archive_of w = pre ++ (key, r) :: post ->
  Forall (other_day date) (dict_keys pre) ->
  has_foreign_letter key = true ->
  get_rates e self_date w = (Raise (ValueError BuiltinValueError), w).
Proof.
  intros Hdate Harch Hpre Hkey.
  rewrite (get_rates_lookup_date e self_date date w Hdate).
  rewrite Harch. unfold dict_keys. rewrite map_app. cbn [map fst].
  rewrite (search_archive_raises _ _ _ _ _ (ValueError BuiltinValueError) Hpre);
    [reflexivity|].
  unfold key_date, float_of_key. rewrite (py_int_foreign key Hkey). reflexivity.
Qed.

Lemma bad_archive_key_escapes_witness :
  has_foreign_letter "yesterday" = true
  /\ get_rates test_env "latest" archived_bad_key
     = (Raise (ValueError BuiltinValueError), archived_bad_key).
Proof.
  split; [reflexivity|].
  exact (bad_archive_key_escapes test_env "latest"
           {| dt_year := 2017; dt_month := 7; dt_day := 14 |}
           archived_bad_key
           [("1499904000", [("USD", PyInt 1)])]
           [("1500000000", test_rates)] "yesterday" test_rates
           eq_refl eq_refl yesterday_other_day eq_refl).
Defined.

Lemma first_entry_of_the_day_wins_witness :
  get_rates test_env "2017-07-14" archived_twice_today
  = (Return test_rates, archived_twice_today).
Proof.
  exact (first_entry_of_the_day_wins test_env "2017-07-14"
           {| dt_year := 2017; dt_month := 7; dt_day := 14 |}
           {| dt_year := 2017; dt_month := 7; dt_day := 14 |}
           archived_twice_today
           [] [("1500003600", [("USD", PyInt 1)])] "1500000000" test_rates
           eq_refl eq_refl (Forall_nil _) eq_refl eq_refl).
Defined.

(** The archive is searched the same way after a store, whatever the date
    stands for. *)
Lemma lookup_after_store (e : env) (data : snapshot) (w : world)
    (self_date : string) (date : ymd) :
  archive_disk e = Writable ->
  utcfromtimestamp (timestamp data) = Return date ->
  lookup_date e self_date = Return date ->
  Forall (other_day date) (dict_keys (archive_of w)) ->
  get_rates e self_date (snd (archive_rates e data w))
  = (Return (snapshot_rates data), snd (archive_rates e data w)).
Proof.
  intros Hdisk Hstamp Hdate Hother.
  assert (Hfresh : ~ In (py_str_of_int (timestamp data)) (dict_keys (archive_of w))).
  { intros Hin. rewrite Forall_forall in Hother.
    destruct (Hother _ Hin) as [saved [Hkey Hday]].
    rewrite key_date_stored, Hstamp in Hkey. injection Hkey as <-.
    rewrite same_day_refl in Hday. discriminate. }
  rewrite (get_rates_lookup_date e self_date date _ Hdate).
  rewrite (proj1 (proj2 (archive_after_store e data w Hdisk))).
  rewrite (dict_set_fresh String.eqb string_eqb_spec _ _ _ Hfresh).
  rewrite (search_archive_hit date date (archive_of w) []
             (py_str_of_int (timestamp data)) (snapshot_rates data));
    [reflexivity | exact Hother | | apply same_day_refl].
  rewrite key_date_stored. exact Hstamp.
Qed.

Lemma download_and_archive_body (e : env) (self_date : string) (data : snapshot)
    (w : world) :
  provider e (route self_date) = Body data ->
  download_and_archive e self_date w
  = (Return (snapshot_rates data),
     snd (archive_rates e data (requested w (route self_date)))).
Proof.
  intros H. unfold download_and_archive, download_rates. run.
  fold (route self_date). rewrite H.
  fold (requested w (route self_date)).
  pose proof (archive_rates_requests e data (requested w (route self_date)))
    as [Hret _].
  destruct (archive_rates e data (requested w (route self_date)))
    as [[[]|err] w1]; [reflexivity | discriminate Hret].
Qed.

(** X6.  A miss followed by the same question is a hit.  When no key of
    the archive is of the day asked for, the provider answers, the file can
    be written and the answer is stamped on that day (UTC), [get_rates]
    sends one request, returns the provider's rates and stores them; asked
    again, it returns the same rates from the archive and sends nothing. *)
Theorem miss_then_hit (e : env) (self_date : string) (date : ymd)
    (data : snapshot) (w : world) :
  archive_disk e = Writable ->
  lookup_date e self_date = Return date ->
  Forall (other_day date) (dict_keys (archive_of w)) ->
  provider e (route self_date) = Body data ->
  utcfromtimestamp (timestamp data) = Return date ->
  let w' := snd (get_rates e self_date w) in
  fst (get_rates e self_date w) = Return (snapshot_rates data)
  /\ requests w' = requests w ++ [route self_date]
  /\ get_rates e self_date w' = (Return (snapshot_rates data), w').
Proof.
  intros Hdisk Hdate Hother Hbody Hstamp w'.
  assert (Hget : get_rates e self_date w
                 = (Return (snapshot_rates data),
                    snd (archive_rates e data (requested w (route self_date))))).
  { rewrite (get_rates_lookup_date e self_date date w Hdate).
    rewrite (search_archive_miss _ _ _ Hother).
    apply download_and_archive_body, Hbody. }
  unfold w'. rewrite Hget. cbn [fst snd].
  split; [reflexivity|]. split.
  - rewrite (proj2 (archive_rates_requests e data _)). reflexivity.
  - apply (lookup_after_store e data (requested w (route self_date))
             self_date date Hdisk Hstamp Hdate).
    exact Hother.
Qed.

Lemma miss_then_hit_witness :
  let w' := snd (get_rates test_env "latest" archived_yesterday) in
  fst (get_rates test_env "latest" archived_yesterday) = Return test_rates
  /\ requests w' = [LatestRates]
  /\ get_rates test_env "latest" w' = (Return test_rates, w').
Proof.
  exact (miss_then_hit test_env "latest"
           {| dt_year := 2017; dt_month := 7; dt_day := 14 |}
           test_snapshot archived_yesterday
           eq_refl eq_refl yesterday_other_day eq_refl eq_refl).
Defined.

(** X7.  On a miss, a provider that fails ends [get_rates] without rates:
    an HTTP status is printed with its cause ("Unknown error" outside
    400, 401, 403, 404, 429) and the program exits with code 1; a lost
    connection and a body that is not JSON leave as [URLError] and as the
    decoding error, uncaught and unprinted.  In each case one request was
    sent and the archive file is as it was. *)
Theorem provider_failure (e : env) (self_date : string) (date : ymd) (w : world) :
  lookup_date e self_date = Return date ->
  Forall (other_day date) (dict_keys (archive_of w)) ->
  (forall code,
      provider e (route self_date) = HttpFailure code ->
      get_rates e self_date w
      = (Raise (SystemExit 1),
         printed (requested w (route self_date))
           [MsgDownloadFailed (HTTPError code) (error_cause code); MsgTerminate])
      /\ (code <> 400 -> code <> 401 -> code <> 403 -> code <> 404 ->
          code <> 429 -> error_cause code = "Unknown error"))
  /\ (provider e (route self_date) = NoConnection ->
      get_rates e self_date w = (Raise URLError, requested w (route self_date)))
  /\ (provider e (route self_date) = BadBody ->
      get_rates e self_date w
      = (Raise JSONDecodeError, requested w (route self_date))).
Proof.
  intros Hdate Hother.
  rewrite (get_rates_lookup_date e self_date date w Hdate).
  rewrite (search_archive_miss _ _ _ Hother).
  unfold download_and_archive, download_rates. run. fold (route self_date).
  split; [|split].
  - intros code ->. split.
    + unfold printed, requested. cbn [stdout archive_file requests].
      rewrite <- app_assoc. reflexivity.
    + intros H0 H1 H3 H4 H9. unfold error_cause.
      repeat match goal with
             | H : code <> _ |- _ => apply Z.eqb_neq in H; rewrite H; clear H
             end.
      reflexivity.
  - intros ->. reflexivity.
  - intros ->. reflexivity.
Qed.

Lemma provider_failure_witness :
  get_rates {| now := {| dt_year := 2017; dt_month := 7; dt_day := 14 |};
               provider := fun _ => HttpFailure 500;
               archive_disk := Writable;
               currency_table := Missing |} "latest" archived_yesterday
  = (Raise (SystemExit 1),
     printed (requested archived_yesterday LatestRates)
       [MsgDownloadFailed (HTTPError 500) "Unknown error"; MsgTerminate]).
Proof.
  exact (proj1 (proj1 (provider_failure
                  {| now := {| dt_year := 2017; dt_month := 7; dt_day := 14 |};
                     provider := fun _ => HttpFailure 500;
                     archive_disk := Writable;
                     currency_table := Missing |} "latest"
                  {| dt_year := 2017; dt_month := 7; dt_day := 14 |}
                  archived_yesterday eq_refl yesterday_other_day)
                500 eq_refl)).
Defined.

(* ================================================================== *)
(** ** More on [archive_rates] *)

Lemma dict_set_twice {V : Type} (d : list (string * V)) (k : string) (v1 v2 : V) :
  dict_set String.eqb (dict_set String.eqb d k v1) k v2 = dict_set String.eqb d k v2.
Proof.
  induction d as [|[k' v'] d IH]; cbn.
  - rewrite String.eqb_refl. reflexivity.
  - destruct (String.eqb k' k) eqn:E; cbn; rewrite E; [reflexivity|].
    rewrite IH. reflexivity.
Qed.

Lemma dict_set_keeps_keys {V : Type} (d : list (string * V)) (k : string) (v0 v : V) :
  dict_get String.eqb d k = Some v0 ->
  dict_keys (dict_set String.eqb d k v) = dict_keys d.
Proof.
  unfold dict_keys.
  induction d as [|[k' v'] d IH]; cbn; [discriminate|].
  destruct (String.eqb k' k) eqn:E; cbn; [reflexivity|].
  intros H. rewrite (IH H). reflexivity.
Qed.

Lemma dict_get_in {V : Type} (d : list (string * V)) (k : string) (v : V) :
  dict_get String.eqb d k = Some v -> In (k, v) d.
Proof.
  induction d as [|[k' v'] d IH]; cbn; [discriminate|].
  destruct (String.eqb k' k) eqn:E.
  - apply String.eqb_eq in E. intros [= <-]. left. congruence.
  - intros H. right. apply IH, H.
Qed.

Lemma py_str_of_int_inj (a b : Z) : py_str_of_int a = py_str_of_int b -> a = b.
Proof.
  intros H. pose proof (py_int_str a) as Ha. rewrite H, py_int_str in Ha.
  congruence.
Qed.

(** X8.  A failure to write the archive does not reach the caller.  For an
    archive file that is absent, cannot be decoded or holds a JSON object:
    when the file cannot be written, [archive_rates] still returns, sends no
    request and prints the failure, once; if [open] failed the file is as
    it was, but if the write failed after [open] had emptied the file,
    every entry archived before is lost. *)
Theorem archive_write_failure_contained (e : env) (data : snapshot) (w : world) :
  archive_disk e <> Writable ->
  let w' := snd (archive_rates e data w) in
  fst (archive_rates e data w) = Return tt
  /\ requests w' = requests w
  /\ stdout w' = stdout w ++ [MsgSavingFailed IOError]
  /\ (archive_disk e = OpenFails -> archive_file w' = archive_file w)
  /\ (archive_disk e = WriteFails -> archive_of w' = []).
Proof.
  intros Hdisk w'. unfold w'.
  rewrite (archive_rates_not_writable _ _ _ Hdisk). cbn [fst snd stdout requests].
  split; [reflexivity|]. split; [reflexivity|]. split; [reflexivity|].
  split; intros H; rewrite H; reflexivity.
Qed.

Lemma archive_write_failure_contained_witness :
  let e := {| now := now test_env;
              provider := provider test_env;
              archive_disk := WriteFails;
              currency_table := Missing |} in
  let w' := snd (archive_rates e test_snapshot archived_today) in
  archive_of archived_today = [("1500000000", test_rates)]
  /\ fst (archive_rates e test_snapshot archived_today) = Return tt
  /\ stdout w' = [MsgSavingFailed IOError]
  /\ archive_of w' = [].
Proof.
  pose proof (archive_write_failure_contained
                {| now := now test_env;
                   provider := provider test_env;
                   archive_disk := WriteFails;
                   currency_table := Missing |} test_snapshot archived_today)
    as H.
  cbv zeta in H.
  destruct H as [Hret [_ [Hout [_ Hlost]]]]; [discriminate|].
  intros e w'. split; [reflexivity|]. split; [exact Hret|].
  split; [exact Hout | exact (Hlost eq_refl)].
Defined.

(** X9.  Storing two snapshots with the same timestamp leaves the archive
    that storing the second alone leaves: the later rates replace the
    earlier ones, and storing a snapshot twice is storing it once. *)
Theorem store_same_timestamp (e : env) (first second : snapshot) (w : world) :
  archive_disk e = Writable ->
  timestamp first = timestamp second ->
  archive_of (snd (archive_rates e second (snd (archive_rates e first w))))
  = archive_of (snd (archive_rates e second w)).
Proof.
  intros Hdisk Hsame.
  rewrite !(proj1 (proj2 (archive_after_store e _ _ Hdisk))).
  rewrite Hsame. apply dict_set_twice.
Qed.

Lemma store_same_timestamp_witness :
  archive_of (snd (archive_rates test_env test_snapshot
                     (snd (archive_rates test_env
                             {| timestamp := 1500000000; base := "USD";
                                snapshot_rates := [("USD", PyInt 1)] |}
                             archived_yesterday))))
  = [("1499904000", [("USD", PyInt 1)]); ("1500000000", test_rates)].
Proof.
  rewrite (store_same_timestamp test_env
             {| timestamp := 1500000000; base := "USD";
                snapshot_rates := [("USD", PyInt 1)] |}
             test_snapshot archived_yesterday eq_refl eq_refl).
  reflexivity.
Defined.

(** X10.  The timestamp of a response is an [int] and the keys read from
    the file are [str], so a snapshot whose timestamp is already a key is
    not written over it: the file written repeats the name, the old member
    first and the new one last.  Read again, the archive has the key once,
    at its old place, with the new rates. *)
Theorem stored_file_repeats_name (e : env) (data : snapshot) (w : world)
    (old : rates) :
  archive_disk e = Writable ->
  dict_get String.eqb (archive_of w) (py_str_of_int (timestamp data)) = Some old ->
  let key := py_str_of_int (timestamp data) in
  let w' := snd (archive_rates e data w) in
  archive_file w' = Content (archive_of w ++ [(key, snapshot_rates data)])
  /\ In (key, old) (archive_of w)
  /\ dict_keys (archive_of w') = dict_keys (archive_of w)
  /\ dict_get String.eqb (archive_of w') key = Some (snapshot_rates data).
Proof.
  intros Hdisk Hold key w'. unfold w'.
  destruct (archive_after_store e data w Hdisk) as [_ [Harch _]].
  rewrite Harch. rewrite (archive_rates_writable _ _ _ Hdisk). cbn [snd archive_file].
  split; [reflexivity|]. split; [apply dict_get_in, Hold|].
  split; [apply (dict_set_keeps_keys _ _ old), Hold|].
  apply dict_get_set_same, string_eqb_spec.
Qed.

Lemma stored_file_repeats_name_witness :
  archive_file (snd (archive_rates test_env test_snapshot
                       {| stdout := [];
                          archive_file := Content [("1500000000", [("USD", PyInt 1)])];
                          requests := [] |}))
  = Content [("1500000000", [("USD", PyInt 1)]); ("1500000000", test_rates)].
Proof.
  exact (proj1 (stored_file_repeats_name test_env test_snapshot
                  {| stdout := [];
                     archive_file := Content [("1500000000", [("USD", PyInt 1)])];
                     requests := [] |}
                  [("USD", PyInt 1)] eq_refl eq_refl)).
Defined.

(** X11.  Snapshots with different timestamps can be stored in either
    order: every key maps to the same rates afterwards. *)
Theorem stores_commute (e : env) (a b : snapshot) (w : world) (k : string) :
  archive_disk e = Writable ->
  timestamp a <> timestamp b ->
  dict_get String.eqb
    (archive_of (snd (archive_rates e b (snd (archive_rates e a w))))) k
  = dict_get String.eqb
      (archive_of (snd (archive_rates e a (snd (archive_rates e b w))))) k.
Proof.
  intros Hdisk Hne.
  rewrite !(proj1 (proj2 (archive_after_store e _ _ Hdisk))).
  assert (Hkeys : py_str_of_int (timestamp a) <> py_str_of_int (timestamp b)).
  { intros H. apply Hne, py_str_of_int_inj, H. }
  destruct (string_dec k (py_str_of_int (timestamp a))) as [-> | Ha];
    [|destruct (string_dec k (py_str_of_int (timestamp b))) as [-> | Hb]].
  - rewrite (dict_get_set_other String.eqb string_eqb_spec) by exact Hkeys.
    rewrite !(dict_get_set_same String.eqb string_eqb_spec). reflexivity.
  - rewrite (dict_get_set_same String.eqb string_eqb_spec).
    rewrite (dict_get_set_other String.eqb string_eqb_spec) by congruence.
    rewrite (dict_get_set_same String.eqb string_eqb_spec). reflexivity.
  - rewrite !(dict_get_set_other String.eqb string_eqb_spec) by assumption.
    reflexivity.
Qed.

Lemma stores_commute_witness :
  dict_get String.eqb
    (archive_of (snd (archive_rates test_env test_snapshot
                        (snd (archive_rates test_env
                                {| timestamp := 1499904000; base := "USD";
                                   snapshot_rates := [("USD", PyInt 1)] |}
                                empty_world))))) "1500000000"
  = Some test_rates.
Proof.
  rewrite (stores_commute test_env
             {| timestamp := 1499904000; base := "USD";
                snapshot_rates := [("USD", PyInt 1)] |}
             test_snapshot empty_world "1500000000" eq_refl);
    [reflexivity | discriminate].
Defined.

(* ================================================================== *)
(** ** More on the target currencies *)

Lemma member_nonempty (currency_rates : rates) (k : option string) :
  member currency_rates k = true -> dict_keys currency_rates <> [].
Proof.
  unfold member, lookup. destruct k as [s|]; [|discriminate].
  destruct currency_rates; [discriminate | discriminate].
Qed.

Lemma get_target_currencies_valid (e : env) (currency_rates : rates)
    (original_currency target_currency : option string) (w : world) :
  wrong_length original_currency = false ->
  member currency_rates original_currency = true ->
  get_target_currencies e currency_rates original_currency target_currency w
  = match translate_symbol e target_currency w with
    | (Return (c :: cs), w') => (Return (c :: cs), w')
    | (Return [], w') =>
        (Return match target_currency with
                | Some t => if dict_mem String.eqb currency_rates t then [t]
                            else dict_keys currency_rates
                | None => dict_keys currency_rates
                end, w')
    | (Raise err, w') => (Raise err, w')
    end.
Proof.
  intros Hlen Hmem. unfold get_target_currencies. rewrite Hlen, Hmem.
  cbn [negb]. unfold bind.
  destruct (translate_symbol e target_currency w) as [[[|c cs]|err] w'];
    try reflexivity.
  destruct target_currency as [t|]; [|reflexivity].
  destruct (dict_mem String.eqb currency_rates t); reflexivity.
Qed.

Lemma get_target_currencies_source (e : env) (currency_rates : rates)
    (original_currency target_currency : option string) (w w' : world)
    (targets : list string) :
  get_target_currencies e currency_rates original_currency target_currency w
  = (Return targets, w') ->
  wrong_length original_currency = false
  /\ member currency_rates original_currency = true.
Proof.
  unfold get_target_currencies.
  destruct (wrong_length original_currency); [discriminate|].
  destruct (member currency_rates original_currency); [|discriminate].
  intros _. split; reflexivity.
Qed.

Lemma translate_symbol_returns (e : env) (currency : option string) (w w' : world)
    (codes : list string) :
  translate_symbol e currency w = (Return codes, w') -> w' = w.
Proof.
  destruct (currency_table e) as [| |members] eqn:H.
  - rewrite (translate_symbol_missing _ _ _ H). discriminate.
  - rewrite (translate_symbol_malformed _ _ _ H). discriminate.
  - rewrite (translate_symbol_content _ _ _ _ H). congruence.
Qed.

(** X12.  When [get_target_currencies] returns, the list is never empty,
    the source is a key of the rates, and nothing was printed, requested or
    written. *)
Theorem resolved_targets_nonempty (e : env) (currency_rates : rates)
    (original_currency target_currency : option string) (w w' : world)
    (targets : list string) :
  get_target_currencies e currency_rates original_currency target_currency w
  = (Return targets, w') ->
  targets <> [] /\ w' = w /\ member currency_rates original_currency = true.
Proof.
  intros H.
  destruct (get_target_currencies_source _ _ _ _ _ _ _ H) as [Hlen Hmem].
  rewrite (get_target_currencies_valid _ _ _ _ _ Hlen Hmem) in H.
  destruct (translate_symbol e target_currency w) as [[codes|err] w1] eqn:Hsym;
    [|discriminate H].
  apply translate_symbol_returns in Hsym. subst w1.
  pose proof (member_nonempty _ _ Hmem) as Hkeys.
  destruct codes as [|c cs].
  - injection H as <- <-. split; [|split; [reflexivity | exact Hmem]].
    destruct target_currency as [t|]; [|exact Hkeys].
    destruct (dict_mem String.eqb currency_rates t); [discriminate | exact Hkeys].
  - injection H as <- <-. split; [discriminate|]. split; [reflexivity | exact Hmem].
Qed.

Lemma resolved_targets_nonempty_witness :
  ["USD"; "CZK"; "CAD"] <> []
  /\ get_target_currencies test_env test_rates (Some "USD") None empty_world
     = (Return ["USD"; "CZK"; "CAD"], empty_world).
Proof.
  split; [|reflexivity].
  exact (proj1 (resolved_targets_nonempty test_env test_rates (Some "USD") None
                  empty_world empty_world ["USD"; "CZK"; "CAD"] eq_refl)).
Defined.

(** X13.  The symbol table is read for every request with a valid source,
    whatever the target, a plain code and [None] included: without the file
    the program exits after the report, and a file that is not JSON makes
    the decoding error leave [get_target_currencies]. *)
Theorem symbol_table_always_read (e : env) (currency_rates : rates)
    (original_currency target_currency : option string) (w : world) :
  wrong_length original_currency = false ->
  member currency_rates original_currency = true ->
  (currency_table e = Missing ->
   get_target_currencies e currency_rates original_currency target_currency w
   = (Raise (SystemExit 1), symbols_report w))
  /\ (currency_table e = Malformed ->
      get_target_currencies e currency_rates original_currency target_currency w
      = (Raise JSONDecodeError, w)).
Proof.
  intros Hlen Hmem.
  rewrite (get_target_currencies_valid _ _ _ _ _ Hlen Hmem).
  split; intros H.
  - rewrite (translate_symbol_missing _ _ _ H). reflexivity.
  - rewrite (translate_symbol_malformed _ _ _ H). reflexivity.
Qed.

Lemma symbol_table_always_read_witness :
  get_target_currencies
    {| now := now test_env; provider := provider test_env;
       archive_disk := Writable; currency_table := Missing |}
    test_rates (Some "USD") (Some "CZK") empty_world
  = (Raise (SystemExit 1), symbols_report empty_world).
Proof.
  exact (proj1 (symbol_table_always_read
                  {| now := now test_env; provider := provider test_env;
                     archive_disk := Writable; currency_table := Missing |}
                  test_rates (Some "USD") (Some "CZK") empty_world
                  eq_refl eq_refl) eq_refl).
Defined.

(* ================================================================== *)
(** ** More on the conversion *)

Lemma dict_keys_set_string {V : Type} (d : list (string * V)) (k x : string) (v : V) :
  In x (dict_keys (dict_set String.eqb d k v)) <-> In x (dict_keys d) \/ x = k.
Proof. apply dict_keys_set, string_eqb_spec. Qed.

(** What a loop that returns has done. *)
Lemma convert_loop_effects (currency_rates : rates) (amount : float)
    (original_rate : pynum) (targets : list string) :
  forall (out out' : list (string * float)) (w w' : world),
    convert_loop currency_rates amount original_rate targets out w
    = (Return out', w') ->
    stdout w'
    = stdout w ++ map MsgSkipping (unknown_targets currency_rates targets)
    /\ archive_file w' = archive_file w
    /\ requests w' = requests w
    /\ (forall c, In c (dict_keys out')
                  <-> In c (dict_keys out)
                      \/ (In c targets
                          /\ dict_mem String.eqb currency_rates c = true))
    /\ (NoDup (dict_keys out) -> NoDup (dict_keys out')).
Proof.
  induction targets as [|t rest IH]; intros out out' w w'.
  - cbn [convert_loop]. unfold ret. intros [= <- <-].
    cbn [unknown_targets filter map]. rewrite app_nil_r.
    repeat split; try tauto. intros [H | [[] _]]. exact H.
  - rewrite convert_turn. unfold unknown_targets, dict_mem. cbn [filter].
    destruct (dict_get String.eqb currency_rates t) as [rt|] eqn:Ht.
    + destruct (rounded_conversion amount original_rate rt) as [v|err];
        [|discriminate].
      intros H. destruct (IH _ _ _ _ H) as [Hout [Hfile [Hreq [Hkeys Hnodup]]]].
      cbn [negb]. split; [exact Hout|]. split; [exact Hfile|].
      split; [exact Hreq|]. split.
      * intros c. rewrite Hkeys, dict_keys_set_string. unfold dict_mem.
        split.
        -- intros [[Hc | ->] | [Hc Hm]]; [left; exact Hc | right | right].
           ++ split; [left; reflexivity | rewrite Ht; reflexivity].
           ++ split; [right; exact Hc | exact Hm].
        -- intros [Hc | [[<- | Hc] Hm]];
             [left; left; exact Hc | left; right; reflexivity | right].
           split; assumption.
      * intros Hnd. apply Hnodup.
        apply (dict_set_nodup String.eqb string_eqb_spec), Hnd.
    + intros H. destruct (IH _ _ _ _ H) as [Hout [Hfile [Hreq [Hkeys Hnodup]]]].
      cbn [negb map]. cbn [stdout archive_file requests] in Hout, Hfile, Hreq.
      rewrite <- app_assoc in Hout.
      split; [exact Hout|]. split; [exact Hfile|]. split; [exact Hreq|].
      split; [|exact Hnodup].
      intros c. rewrite Hkeys. unfold dict_mem. split.
      * intros [Hc | [Hc Hm]]; [left; exact Hc | right].
        split; [right; exact Hc | exact Hm].
      * intros [Hc | [[<- | Hc] Hm]]; [left; exact Hc | | right].
        -- rewrite Ht in Hm. discriminate Hm.
        -- split; assumption.
Qed.

Lemma convert_currency_returns (currency_rates : rates) (amount : pynum)
    (original_currency : option string) (targets : list string)
    (res : conversion) (w w' : world) :
  convert_currency currency_rates amount original_currency targets w
  = (Return res, w') ->
  exists original_rate,
    amount = PyFloat (input_amount res)
    /\ fltb (input_amount res) (S754_zero false) = false
    /\ lookup currency_rates original_currency = Some original_rate
    /\ input_currency res = original_currency
    /\ convert_loop currency_rates (input_amount res) original_rate targets [] w
       = (Return (output res), w').
Proof.
  unfold convert_currency. destruct amount as [z|a]; [discriminate|].
  destruct (fltb a (S754_zero false)) eqn:Hneg; [discriminate|].
  destruct (lookup currency_rates original_currency) as [r0|]; [|discriminate].
  unfold bind, ret.
  destruct (convert_loop currency_rates a r0 targets [] w) as [[out|err] w1] eqn:Hloop;
    [|discriminate].
  intros [= <- <-]. exists r0. cbn [input_amount input_currency output].
  repeat split; assumption.
Qed.

(** X14.  Whenever [convert_currency] returns, the keys of its output are
    exactly the targets that are keys of the rates, each of them once even
    when the list of targets repeats it, and the input is echoed as it was
    given. *)
Theorem output_keys (currency_rates : rates) (amount : pynum)
    (original_currency : option string) (targets : list string)
    (res : conversion) (w w' : world) :
  convert_currency currency_rates amount original_currency targets w
  = (Return res, w') ->
  NoDup (dict_keys (output res))
  /\ (forall c, In c (dict_keys (output res))
                <-> In c targets /\ dict_mem String.eqb currency_rates c = true)
  /\ amount = PyFloat (input_amount res)
  /\ input_currency res = original_currency.
Proof.
  intros H.
  destruct (convert_currency_returns _ _ _ _ _ _ _ H)
    as [r0 [Hamount [_ [_ [Hcur Hloop]]]]].
  destruct (convert_loop_effects _ _ _ _ _ _ _ _ Hloop) as [_ [_ [_ [Hkeys Hnodup]]]].
  split; [apply Hnodup; constructor|].
  split; [|split; assumption].
  intros c. rewrite Hkeys. cbn [dict_keys map In]. tauto.
Qed.

Lemma output_keys_witness :
  convert_currency test_rates (PyFloat (float_of_Z 300)) (Some "USD")
    ["CZK"; "XXX"; "CZK"] empty_world
  = (Return {| input_amount := float_of_Z 300;
               input_currency := Some "USD";
               output := [("CZK", float_of_Z 5000)] |},
     printed empty_world [MsgSkipping "XXX"])
  /\ NoDup (dict_keys [("CZK", float_of_Z 5000)]).
Proof.
  assert (H : convert_currency test_rates (PyFloat (float_of_Z 300)) (Some "USD")
                ["CZK"; "XXX"; "CZK"] empty_world
              = (Return {| input_amount := float_of_Z 300;
                           input_currency := Some "USD";
                           output := [("CZK", float_of_Z 5000)] |},
                 printed empty_world [MsgSkipping "XXX"]))
    by (vm_compute; reflexivity).
  split; [exact H|].
  exact (proj1 (output_keys _ _ _ _ _ _ _ H)).
Defined.

(** X15.  Whenever [convert_currency] returns, it has printed one
    "not supported, skipping" line for each target that is not a key of the
    rates, in the order of the list and as often as the list names it, and
    nothing else; it has sent no request and left the archive alone. *)
Theorem skipped_targets_printed (currency_rates : rates) (amount : pynum)
    (original_currency : option string) (targets : list string)
    (res : conversion) (w w' : world) :
  convert_currency currency_rates amount original_currency targets w
  = (Return res, w') ->
  stdout w' = stdout w ++ map MsgSkipping (unknown_targets currency_rates targets)
  /\ archive_file w' = archive_file w
  /\ requests w' = requests w.
Proof.
  intros H.
  destruct (convert_currency_returns _ _ _ _ _ _ _ H) as [r0 [_ [_ [_ [_ Hloop]]]]].
  destruct (convert_loop_effects _ _ _ _ _ _ _ _ Hloop) as [Hout [Hfile [Hreq _]]].
  repeat split; assumption.
Qed.

Lemma skipped_targets_printed_witness :
  stdout (snd (convert_currency test_rates (PyFloat (float_of_Z 300)) (Some "USD")
                 ["GBP"; "CZK"; "XXX"; "GBP"] empty_world))
  = [MsgSkipping "GBP"; MsgSkipping "XXX"; MsgSkipping "GBP"].
Proof.
  assert (H : convert_currency test_rates (PyFloat (float_of_Z 300)) (Some "USD")
                ["GBP"; "CZK"; "XXX"; "GBP"] empty_world
              = (Return {| input_amount := float_of_Z 300;
                           input_currency := Some "USD";
                           output := [("CZK", float_of_Z 5000)] |},
                 printed empty_world
                   [MsgSkipping "GBP"; MsgSkipping "XXX"; MsgSkipping "GBP"]))
    by (vm_compute; reflexivity).
  rewrite H. cbn [snd].
  exact (proj1 (skipped_targets_printed _ _ _ _ _ _ _ H)).
Defined.

(* ================================================================== *)
(** ** From the targets to the conversion *)

Lemma not_key_error (err : exn) :
  caught err [CKeyError] = false -> forall k, err <> KeyError k.
Proof. intros H k ->. discriminate H. Qed.

Lemma convert_loop_raise_kind (currency_rates : rates) (amount : float)
    (original_rate : pynum) (targets : list string) :
  forall (out : list (string * float)) (w w' : world) (err : exn),
    convert_loop currency_rates amount original_rate targets out w
    = (Raise err, w') ->
    caught err [CKeyError] = false.
Proof.
  induction targets as [|t rest IH]; intros out w w' err.
  - discriminate.
  - rewrite convert_turn.
    destruct (dict_get String.eqb currency_rates t) as [rt|]; [|apply IH].
    destruct (rounded_conversion amount original_rate rt) as [v|err'] eqn:Hconv;
      [apply IH|].
    intros [= <- <-]. apply (rounded_conversion_raises _ _ _ _ Hconv).
Qed.

Lemma convert_currency_raise_kind (currency_rates : rates) (amount : pynum)
    (original_currency : option string) (targets : list string)
    (w w' : world) (err : exn) :
  member currency_rates original_currency = true ->
  convert_currency currency_rates amount original_currency targets w
  = (Raise err, w') ->
  caught err [CKeyError] = false.
Proof.
  intros Hmem. unfold convert_currency, member in *.
  destruct amount as [z|a]; [intros [= <- <-]; reflexivity|].
  destruct (fltb a (S754_zero false)); [intros [= <- <-]; reflexivity|].
  destruct (lookup currency_rates original_currency) as [r0|]; [|discriminate Hmem].
  unfold bind, ret.
  destruct (convert_loop currency_rates a r0 targets [] w) as [[out|err'] w1] eqn:Hloop;
    [discriminate|].
  intros [= <- <-]. apply (convert_loop_raise_kind _ _ _ _ _ _ _ _ Hloop).
Qed.

(** X16.  The source that [get_target_currencies] has let through is a key
    of the rates, so [convert_currency], called with that source and the
    targets returned, never fails on its unguarded lookup: whatever the
    amount, it raises no [KeyError]; and with rates that are positive
    numbers and a [float] amount that is not below zero, it returns. *)
Theorem resolved_targets_convert (e : env) (currency_rates : rates)
    (original_currency target_currency : option string) (w w1 : world)
    (targets : list string) :
  get_target_currencies e currency_rates original_currency target_currency w
  = (Return targets, w1) ->
  (forall amount err w2,
      convert_currency currency_rates amount original_currency targets w1
      = (Raise err, w2) ->
      forall k, err <> KeyError k)
  /\ (forall a : float,
        fltb a (S754_zero false) = false ->
        (forall c rt, dict_get String.eqb currency_rates c = Some rt ->
                      positive_rate rt = true) ->
        exists res w2,
          convert_currency currency_rates (PyFloat a) original_currency targets w1
          = (Return res, w2)).
Proof.
  intros H.
  destruct (get_target_currencies_source _ _ _ _ _ _ _ H) as [_ Hmem].
  split.
  - intros amount err w2 Hconv.
    apply not_key_error, (convert_currency_raise_kind _ _ _ _ _ _ _ Hmem Hconv).
  - intros a Ha Hrates. rewrite convert_currency_float by exact Ha.
    unfold member in Hmem.
    destruct (lookup currency_rates original_currency) as [r0|] eqn:Hsrc;
      [|discriminate Hmem].
    assert (Hr0 : positive_rate r0 = true).
    { destruct original_currency as [s|]; [apply (Hrates s), Hsrc | discriminate Hsrc]. }
    destruct (positive_rate_finite _ Hr0) as [Hfin Hnz].
    destruct (convert_loop_returns currency_rates a r0 targets)
      with (output := @nil (string * float)) (w := w1)
      as [out [w2 [Hrun _]]].
    { intros c rt _ Hrt.
      destruct (positive_rate_finite _ (Hrates _ _ Hrt)) as [Hfin' _].
      apply (rounded_conversion_cases a r0 rt Hfin Hfin'), Hnz. }
    rewrite Hrun. eexists. eexists. reflexivity.
Qed.

Lemma resolved_targets_convert_witness :
  exists res w2,
    convert_currency test_rates (PyFloat (float_of_Z 300)) (Some "USD")
      ["EGP"; "FKP"; "GIP"; "GGP"; "IMP"; "JEP"; "LBP"; "SHP"; "SYP"; "GBP"]
      empty_world = (Return res, w2).
Proof.
  exact (proj2 (resolved_targets_convert test_env test_rates (Some "USD")
                  (Some pound) empty_world empty_world
                  ["EGP"; "FKP"; "GIP"; "GGP"; "IMP"; "JEP"; "LBP"; "SHP"; "SYP";
                   "GBP"] eq_refl)
           (float_of_Z 300) eq_refl test_rates_positive).
Defined.

(* ================================================================== *)
(** ** The constructor and the main block *)

Lemma date_setter_returns (e : env) (date : option string) (w : world) :
  exists d w', date_setter e date w = (Return d, w').
Proof.
  destruct date as [raw|]; [|eexists; eexists; reflexivity].
  destruct (check_date (dt_year (now e)) raw) as [p|err] eqn:H.
  - unfold date_setter. rewrite H. eexists. eexists. reflexivity.
  - rewrite (date_setter_refused _ _ _ _ H). eexists. eexists. reflexivity.
Qed.

Lemma init_latest (e : env) (w : world) (rs : outcome rates) (w' : world) :
  get_rates e "latest" w = (rs, w') ->
  (d <- ret "latest" ;; r <- get_rates e d ;;
   ret {| self_date := d; currency_rates := r |}) w
  = (match rs with
     | Return r => Return {| self_date := "latest"; currency_rates := r |}
     | Raise err => Raise err
     end, w').
Proof. intros H. run. rewrite H. destruct rs; reflexivity. Qed.

(** X17.  A date the setter refuses does not stop the constructor: with
    [None] and with any text that is not a well-formed date, [Converter]
    is built on the rates [get_rates] gives for ["latest"], after the
    refusal (if any) and the choice were printed; it fails only where that
    call fails. *)
Theorem refused_date_uses_latest (e : env) (date : option string) (w : world) :
  date = None
  \/ (exists raw, date = Some raw
                  /\ well_formed_date (dt_year (now e)) raw = false) ->
  exists lines : list message,
    init e date w
    = (match fst (get_rates e "latest" (printed w lines)) with
       | Return r => Return {| self_date := "latest"; currency_rates := r |}
       | Raise err => Raise err
       end, snd (get_rates e "latest" (printed w lines)))
    /\ (date = None -> lines = [MsgUsingRates "latest"])
    /\ (date <> None ->
        exists err, lines = [MsgError err; MsgUsingRates "latest"]).
Proof.
  intros [-> | [raw [-> Hwf]]].
  - exists [MsgUsingRates "latest"]. split; [|split; [reflexivity | congruence]].
    unfold init. cbn [date_setter]. run.
    fold (printed w [MsgUsingRates "latest"]).
    destruct (get_rates e "latest" (printed w [MsgUsingRates "latest"]))
      as [[r|err] w']; reflexivity.
  - destruct (check_date (dt_year (now e)) raw) as [p|err] eqn:H.
    { rewrite (check_date_well_formed _ _ _ H) in Hwf. discriminate Hwf. }
    exists [MsgError err; MsgUsingRates "latest"].
    split; [|split; [discriminate | intros _; exists err; reflexivity]].
    unfold init, bind. rewrite (date_setter_refused _ _ _ _ H).
    fold (printed w [MsgError err; MsgUsingRates "latest"]). unfold ret.
    destruct (get_rates e "latest" (printed w [MsgError err; MsgUsingRates "latest"]))
      as [[r|err'] w']; reflexivity.
Qed.

Lemma refused_date_uses_latest_witness :
  fst (init test_env (Some "31/04/2016") archived_today)
  = Return {| self_date := "latest"; currency_rates := test_rates |}.
Proof.
  destruct (refused_date_uses_latest test_env (Some "31/04/2016") archived_today
              (or_intror (ex_intro _ "31/04/2016" (conj eq_refl eq_refl))))
    as [lines [Hinit _]].
  rewrite Hinit. reflexivity.
Defined.

Lemma get_target_currencies_raise_kind (e : env) (currency_rates : rates)
    (original_currency target_currency : option string) (w w' : world) (err : exn) :
  get_target_currencies e currency_rates original_currency target_currency w
  = (Raise err, w') ->
  caught err [CKeyError] = false.
Proof.
  unfold get_target_currencies.
  destruct (wrong_length original_currency); [intros [= <- <-]; reflexivity|].
  destruct (member currency_rates original_currency);
    [|intros [= <- <-]; reflexivity].
  cbn [negb]. unfold bind.
  destruct (currency_table e) as [| |members] eqn:H.
  - rewrite (translate_symbol_missing _ _ _ H). intros [= <- <-]. reflexivity.
  - rewrite (translate_symbol_malformed _ _ _ H). intros [= <- <-]. reflexivity.
  - rewrite (translate_symbol_content _ _ _ _ H).
    destruct (match lookup _ target_currency with Some c => c | None => [] end);
      [|discriminate].
    destruct target_currency as [t|]; [|discriminate].
    destruct (dict_mem String.eqb currency_rates t); discriminate.
Qed.

(** X18.  Once the converter is built, the main block never ends on an
    uncaught [KeyError]: the source was checked by [get_target_currencies]
    before [convert_currency] looks its rate up, the symbol that is not in
    the table and the target that is not in the rates are caught where they
    are looked up. *)
Theorem main_never_key_error (e : env) (date currency_from currency_to : option string)
    (amount : float) (w w1 : world) (conv : converter) (k : option string) :
  init e date w = (Return conv, w1) ->
  fst (Cli.main_until_save e date currency_from currency_to amount w)
  <> Cli.Escaped (KeyError k).
Proof.
  intros Hinit. unfold Cli.main_until_save. rewrite Hinit.
  destruct (get_target_currencies e (currency_rates conv) currency_from
              currency_to w1) as [[targets|err] w2] eqn:Htargets.
  2:{ pose proof (get_target_currencies_raise_kind _ _ _ _ _ _ _ Htargets) as H.
      destruct (caught err [CValueError]); cbn [fst]; [discriminate|].
      intros [= ->]. discriminate H. }
  destruct (get_target_currencies_source _ _ _ _ _ _ _ Htargets) as [_ Hmem].
  destruct (convert_currency (currency_rates conv) (PyFloat amount) currency_from
              targets w2) as [[data|err] w3] eqn:Hconv; [discriminate|].
  pose proof (convert_currency_raise_kind _ _ _ _ _ _ _ Hmem Hconv) as H.
  destruct (caught err [CValueError]); cbn [fst]; [discriminate|].
  intros [= ->]. discriminate H.
Qed.

Lemma main_never_key_error_witness :
  init test_env None archived_today
  = (Return {| self_date := "latest"; currency_rates := test_rates |},
     printed archived_today [MsgUsingRates "latest"])
  /\ dict_get String.eqb test_rates "EGP" = None
  /\ fst (Cli.main_until_save test_env None (Some "USD") (Some pound)
            (float_of_Z 300) archived_today)
     <> Cli.Escaped (KeyError (Some "EGP")).
Proof.
  split; [reflexivity|]. split; [reflexivity|].
  exact (main_never_key_error test_env None (Some "USD") (Some pound)
           (float_of_Z 300) archived_today
           (printed archived_today [MsgUsingRates "latest"])
           {| self_date := "latest"; currency_rates := test_rates |}
           (Some "EGP") eq_refl).
Defined.

(** X19.  How the main block ends when the currencies cannot be acquired,
    once the converter is built.  A source that is not a key of the rates
    or is not three characters long, and also a symbol table that is not
    JSON (its decoding error is a [ValueError]), end in the report
    "Acquiring input/output currencies failed" and exit code 1; a symbol
    table that cannot be opened ends in the exit of [translate_symbol]
    itself.  In each case nothing was converted. *)
Theorem main_acquiring_failures (e : env) (date currency_from currency_to : option string)
    (amount : float) (w w1 : world) (conv : converter) :
  init e date w = (Return conv, w1) ->
  (wrong_length currency_from = true
   \/ member (currency_rates conv) currency_from = false ->
   exists v, Cli.main_until_save e date currency_from currency_to amount w
             = (Cli.AcquiringFailed (ValueError v), w1))
  /\ (wrong_length currency_from = false ->
      member (currency_rates conv) currency_from = true ->
      (currency_table e = Malformed ->
       Cli.main_until_save e date currency_from currency_to amount w
       = (Cli.AcquiringFailed JSONDecodeError, w1))
      /\ (currency_table e = Missing ->
          Cli.main_until_save e date currency_from currency_to amount w
          = (Cli.Escaped (SystemExit 1), symbols_report w1))).
Proof.
  intros Hinit. unfold Cli.main_until_save. rewrite Hinit. split.
  - intros H. unfold get_target_currencies.
    destruct (wrong_length currency_from); [eexists; reflexivity|].
    destruct H as [H | H]; [discriminate H|]. rewrite H. eexists. reflexivity.
  - intros Hlen Hmem.
    rewrite (get_target_currencies_valid _ _ _ _ _ Hlen Hmem).
    split; intros H.
    + rewrite (translate_symbol_malformed _ _ _ H). reflexivity.
    + rewrite (translate_symbol_missing _ _ _ H). reflexivity.
Qed.

Lemma main_acquiring_failures_witness :
  Cli.main_until_save
    {| now := now test_env; provider := provider test_env;
       archive_disk := Writable; currency_table := Malformed |}
    None (Some "USD") (Some "CZK") (float_of_Z 300) archived_today
  = (Cli.AcquiringFailed JSONDecodeError,
     printed archived_today [MsgUsingRates "latest"]).
Proof.
  exact (proj1 (proj2 (main_acquiring_failures
                  {| now := now test_env; provider := provider test_env;
                     archive_disk := Writable; currency_table := Malformed |}
                  None (Some "USD") (Some "CZK") (float_of_Z 300) archived_today
                  (printed archived_today [MsgUsingRates "latest"])
                  {| self_date := "latest"; currency_rates := test_rates |}
                  eq_refl) eq_refl eq_refl) eq_refl).
Defined.
